(** * clusterman: the autoscaler bootstrap batch

    A shallow embedding of [clusterman/batch/autoscaler_bootstrap.py]:
    [wait_for_process] (the stage waiter) and [AutoscalerBootstrapBatch.run]
    (sequencing, steady-state loop, supervisord cleanup), run against an
    arbitrary supervisor, with the calls the program makes recorded in order.
    The two loops of the source have no bound; here each is given [fuel]
    iterations, and a loop that is cut by the bound is told apart from one
    that ended. *)

From Stdlib Require Import List String Ascii ZArith Lia Bool Arith.
From Stdlib Require Import DecimalString DecimalNat.
Import ListNotations.
Open Scope string_scope.
Open Scope list_scope.

(** ** Exceptions, calls and the recorded trace *)

(** What a call into the outside world can raise.  [OSError] stands for the
    class and its subclasses (ConnectionRefusedError, ...), [RpcFault] for
    [xmlrpc.client.Fault], [OtherError] for any other class. *)
Inductive failure : Type :=
| OSError
| KeyboardInterrupt
| RpcFault
| OtherError (cls : string).

(** The exceptions of the program: those of its calls, and the one class the
    module defines and raises itself. *)
Inductive exn : Type :=
| Raised (e : failure)
| AutoscalerBootstrapException (msg : string).

(** [except OSError] *)
Definition is_OSError (x : exn) : bool :=
  match x with Raised OSError => true | _ => false end.

(** [except KeyboardInterrupt] *)
Definition is_KeyboardInterrupt (x : exn) : bool :=
  match x with Raised KeyboardInterrupt => true | _ => false end.

(** What a call into the outside world gives back. *)
Inductive reply (A : Type) : Type :=
| Returns (a : A)
| Raises (e : failure).
Arguments Returns {A} a.
Arguments Raises {A} e.

(** Calls whose value the program does not look at. *)
Inductive command : Type :=
| Popen                                (* subprocess.Popen(... supervisord ...) *)
| Sleep (secs : Z)                     (* time.sleep(secs) *)
| StartProcessGroup (name : string)    (* rpc.supervisor.startProcessGroup *)
| StartProcess (name : string)         (* rpc.supervisor.startProcess *)
| Shutdown                             (* rpc.supervisor.shutdown() *)
| ProcWait.                            (* supervisord_proc.wait() *)

Inductive level : Type := Info | Warning.

Inductive event : Type :=
| EvInfo (name : string) (r : reply string)   (* getProcessInfo(name)["statename"] *)
| EvCmd (c : command) (r : reply unit)
| EvLog (lvl : level) (msg : string).

Definition trace := list event.

(** ** Results and the monad of the program *)

(** [OutOfFuel] marks a loop that was cut by the fuel bound; it is not an
    outcome of the program. *)
Inductive res (A : Type) : Type :=
| Val (a : A)
| Exc (e : exn)
| OutOfFuel.
Arguments Val {A} a.
Arguments Exc {A} e.
Arguments OutOfFuel {A}.

Definition terminated {A} (r : res A) : bool :=
  match r with OutOfFuel => false | _ => true end.

Inductive ctl : Type := Continue | Break.

Definition SUPERVISORD_RUNNING_STATES : list string := ["STARTING"; "RUNNING"].

(** [range(n)] of Python for an int [n]: empty when [n <= 0]. *)
Definition range (n : Z) : list nat := seq 0 (Z.to_nat n).

(** [str(i)] for a non-negative int. *)
Definition str_of_nat (i : nat) : string := NilZero.string_of_uint (Nat.to_uint i).

(** [f"{process_name}:{process_name}_{i}"] *)
Definition instance_name (process_name : string) (i : nat) : string :=
  (process_name ++ ":" ++ process_name ++ "_" ++ str_of_nat i)%string.

(** [any(state == "FATAL" for state in states)] *)
Definition any_fatal (states : list string) : bool :=
  existsb (fun state => String.eqb state "FATAL") states.

(** [all(state == terminal_state for state in states)] *)
Definition all_terminal (terminal_state : string) (states : list string) : bool :=
  forallb (fun state => String.eqb state terminal_state) states.

Definition could_not_start (process_name : string) : string :=
  ("Process " ++ process_name ++ " could not start; aborting")%string.

Section Program.

(** The supervisor and the operating system: any state type, any answers. *)
Variable World : Type.
Variable getProcessInfo : World -> string -> reply string * World.
Variable perform : World -> command -> reply unit * World.
(** [self.running], a flag set from outside. *)
Variable running : World -> bool.

Definition M (A : Type) : Type := World -> res A * World * trace.

Definition ret {A} (a : A) : M A := fun w => (Val a, w, []).

Definition bind {A B} (m : M A) (k : A -> M B) : M B := fun w =>
  match m w with
  | (Val a, w1, t1) => let '(r, w2, t2) := k a w1 in (r, w2, t1 ++ t2)
  | (Exc e, w1, t1) => (Exc e, w1, t1)
  | (OutOfFuel, w1, t1) => (OutOfFuel, w1, t1)
  end.

Definition raise {A} (e : exn) : M A := fun w => (Exc e, w, []).

Definition out_of_fuel {A} : M A := fun w => (OutOfFuel, w, []).

Notation "x <- m ;; k" := (bind m (fun x => k))
  (at level 61, m at next level, right associativity).
Notation "m ;;; k" := (bind m (fun _ => k))
  (at level 61, right associativity).

(** [try: m  except <class matched by handles>: h] *)
Definition try_except {A} (m : M A) (handles : exn -> bool) (h : M A) : M A :=
  fun w =>
    match m w with
    | (Exc e, w1, t1) =>
        if handles e
        then let '(r, w2, t2) := h w1 in (r, w2, t1 ++ t2)
        else (Exc e, w1, t1)
    | other => other
    end.

(** The trace [t1] of what ran before, put in front of what [x] recorded. *)
Definition after {A} (t1 : trace) (x : res A * World * trace) : res A * World * trace :=
  let '(r, w, t2) := x in (r, w, t1 ++ t2).

Definition of_reply {A} (r : reply A) : res A :=
  match r with Returns a => Val a | Raises e => Exc (Raised e) end.

(** [rpc.supervisor.getProcessInfo(name)["statename"]] *)
Definition get_statename (name : string) : M string := fun w =>
  let '(r, w1) := getProcessInfo w name in (of_reply r, w1, [EvInfo name r]).

Definition do (c : command) : M unit := fun w =>
  let '(r, w1) := perform w c in (of_reply r, w1, [EvCmd c r]).

Definition log (lvl : level) (msg : string) : M unit := fun w =>
  (Val tt, w, [EvLog lvl msg]).

Definition is_running : M bool := fun w => (Val (running w), w, []).

(** [while True: body], one unit of fuel per iteration. *)
Fixpoint while_true (fuel : nat) (body : M ctl) : M unit :=
  match fuel with
  | O => out_of_fuel
  | S fuel' =>
      c <- body ;;
      match c with
      | Break => ret tt
      | Continue => while_true fuel' body
      end
  end.

(** The list comprehension of [wait_for_process]: one query per index, in
    order; the first query that raises ends it. *)
Fixpoint query_states (process_name : string) (idxs : list nat) : M (list string) :=
  match idxs with
  | [] => ret []
  | i :: rest =>
      state <- get_statename (instance_name process_name i) ;;
      states <- query_states process_name rest ;;
      ret (state :: states)
  end.

(** One iteration of the [while True] of [wait_for_process].  The warning
    is logged without the traceback text that the source appends to it. *)
Definition wait_iteration (process_name : string) (num_procs : Z)
    (terminal_state : string) : M ctl :=
  polled <- try_except
              (states <- query_states process_name (range num_procs) ;;
               ret (Some states))
              is_OSError
              (log Warning "Could not talk to supervisord process" ;;;
               do (Sleep 1) ;;;
               ret None) ;;
  match polled with
  | None => ret Continue
  | Some states =>
      if any_fatal states then
        raise (AutoscalerBootstrapException (could_not_start process_name))
      else if all_terminal terminal_state states then
        ret Break
      else
        do (Sleep 1) ;;; ret Continue
  end.

Definition wait_for_process (fuel : nat) (process_name : string)
    (num_procs : Z) (terminal_state : string) : M unit :=
  log Info ("waiting for " ++ process_name ++ " to start")%string ;;;
  while_true fuel (wait_iteration process_name num_procs terminal_state).

(** One iteration of the steady-state loop of [run]; [and] does not query
    the autoscaler once [self.running] is false. *)
Definition steady_iteration : M ctl :=
  keep <- is_running ;;
  if keep then
    state <- get_statename "autoscaler" ;;
    if existsb (String.eqb state) SUPERVISORD_RUNNING_STATES then
      do (Sleep 5) ;;; ret Continue
    else ret Break
  else ret Break.

(** The body of the [try] of [run]. *)
Definition run_body (fuel : nat) (fetch_proc_count run_proc_count : Z) : M unit :=
  wait_for_process fuel "fetch_signals" fetch_proc_count "EXITED" ;;;
  do (StartProcessGroup "run_signals") ;;;
  wait_for_process fuel "run_signals" run_proc_count "RUNNING" ;;;
  do (StartProcess "autoscaler") ;;;
  while_true fuel steady_iteration.

(** The [finally] clause of [run]. *)
Definition cleanup (skip_supervisord_cleanup : bool) : M unit :=
  if negb skip_supervisord_cleanup then do Shutdown else ret tt.

(** The [try / except KeyboardInterrupt / finally] of [run].  The value of
    the [try ... except] part is [skip_supervisord_cleanup]; the flag is
    still [False] when another exception is on its way through the
    [finally], which re-raises it unless the clause itself raises. *)
Definition run_guarded (fuel : nat) (fetch_proc_count run_proc_count : Z) : M unit :=
  fun w =>
    let skip_supervisord_cleanup := false in
    match try_except
            (run_body fuel fetch_proc_count run_proc_count ;;;
             ret skip_supervisord_cleanup)
            is_KeyboardInterrupt
            (ret true) w with
    | (Val skip, w1, t1) => after t1 (cleanup skip w1)
    | (Exc e, w1, t1) =>
        after t1 ((cleanup skip_supervisord_cleanup ;;; raise e) w1)
    | (OutOfFuel, w1, t1) => (OutOfFuel, w1, t1)
    end.

(** [AutoscalerBootstrapBatch.run].  The computation of [CMAN_ARGS] only
    feeds the command line of [Popen]; leaving the [with] block closes the
    client connection and makes no call. *)
Definition run (fuel : nat) (fetch_proc_count run_proc_count : Z) : M unit :=
  do Popen ;;;
  do (Sleep 1) ;;;
  run_guarded fuel fetch_proc_count run_proc_count ;;;
  log Info "Shutting down..." ;;;
  do ProcWait.

End Program.

Arguments ret {World A} a.
Arguments bind {World A B} m k.
Arguments raise {World A} e.
Arguments out_of_fuel {World A}.
Arguments try_except {World A} m handles h.
Arguments after {World A} t1 x.
Arguments get_statename {World} getProcessInfo name.
Arguments do {World} perform c.
Arguments log {World} lvl msg.
Arguments is_running {World} running.
Arguments while_true {World} fuel body.
Arguments query_states {World} getProcessInfo process_name idxs.
Arguments wait_iteration {World} getProcessInfo perform process_name num_procs terminal_state.
Arguments wait_for_process {World} getProcessInfo perform fuel process_name num_procs terminal_state.
Arguments steady_iteration {World} getProcessInfo perform running.
Arguments run_body {World} getProcessInfo perform running fuel fetch_proc_count run_proc_count.
Arguments cleanup {World} perform skip_supervisord_cleanup.
Arguments run_guarded {World} getProcessInfo perform running fuel fetch_proc_count run_proc_count.
Arguments run {World} getProcessInfo perform running fuel fetch_proc_count run_proc_count.

(** ** Reading a trace *)

(** The queries of a poll that answered [states], one per index. *)
Definition answered (process_name : string) (idxs : list nat) (states : list string) : trace :=
  map (fun '(i, state) => EvInfo (instance_name process_name i) (Returns state))
      (combine idxs states).

(** A whole poll in which every instance reports [state]. *)
Definition all_report (process_name : string) (num_procs : Z) (state : string) : trace :=
  map (fun i => EvInfo (instance_name process_name i) (Returns state)) (range num_procs).

(** The names the status queries of a trace were issued with, in order. *)
Fixpoint queried (t : trace) : list string :=
  match t with
  | [] => []
  | EvInfo name _ :: t' => name :: queried t'
  | _ :: t' => queried t'
  end.

Definition is_cmd (c : command) (ev : event) : bool :=
  match ev, c with
  | EvCmd Shutdown _, Shutdown => true
  | EvCmd ProcWait _, ProcWait => true
  | EvCmd Popen _, Popen => true
  | EvCmd (Sleep a) _, Sleep b => Z.eqb a b
  | EvCmd (StartProcessGroup a) _, StartProcessGroup b => String.eqb a b
  | EvCmd (StartProcess a) _, StartProcess b => String.eqb a b
  | _, _ => false
  end.

(** How many times a command was issued. *)
Definition calls (c : command) (t : trace) : nat := List.length (filter (is_cmd c) t).

(** A call of the [try] body of [run] that was cut by a KeyboardInterrupt:
    a status query, a sleep or a start command (the body makes no other
    call). *)
Definition interrupt_in_body (ev : event) : bool :=
  match ev with
  | EvInfo _ (Raises KeyboardInterrupt) => true
  | EvCmd (Sleep _) (Raises KeyboardInterrupt) => true
  | EvCmd (StartProcessGroup _) (Raises KeyboardInterrupt) => true
  | EvCmd (StartProcess _) (Raises KeyboardInterrupt) => true
  | _ => false
  end.

Definition interrupted (t : trace) : bool := existsb interrupt_in_body t.

(** What follows a [time.sleep]: the loop goes on, or the exception that cut
    the sleep leaves it. *)
Definition continue_or (o : reply unit) : res ctl :=
  match o with Returns _ => Val Continue | Raises e => Exc (Raised e) end.

Definition warning_text : string := "Could not talk to supervisord process".

Definition waiting_text (process_name : string) : string :=
  ("waiting for " ++ process_name ++ " to start")%string.

(** ** A scripted supervisor *)

Module Fake.

(** Status queries are answered from [answers] in order, then by
    [otherwise]; the other calls from [outcomes], then they return. *)
Record world : Type := {
  answers : list (reply string);
  otherwise : reply string;
  outcomes : list (reply unit);
  keep_running : bool
}.

Definition getProcessInfo (w : world) (_ : string) : reply string * world :=
  match answers w with
  | [] => (otherwise w, w)
  | a :: rest =>
      (a, {| answers := rest; otherwise := otherwise w;
             outcomes := outcomes w; keep_running := keep_running w |})
  end.

Definition perform (w : world) (_ : command) : reply unit * world :=
  match outcomes w with
  | [] => (Returns tt, w)
  | o :: rest =>
      (o, {| answers := answers w; otherwise := otherwise w;
             outcomes := rest; keep_running := keep_running w |})
  end.

Definition running (w : world) : bool := keep_running w.

Definition scripted (script : list (reply string)) (rest : reply string) : world :=
  {| answers := script; otherwise := rest; outcomes := []; keep_running := true |}.

Definition wait_for_process := wait_for_process getProcessInfo perform.
Definition run := run getProcessInfo perform running.

(** A poll that the stage waiter retries: every instance answered, or the
    answers read before a query failed with OSError. *)
Inductive round : Type :=
| Answers (states : list string)
| Fails (states : list string).

(** What the supervisor is scripted to reply in such a poll. *)
Definition round_script (r : round) : list (reply string) :=
  match r with
  | Answers states => map Returns states
  | Fails states => map Returns states ++ [Raises OSError]
  end.

(** What the stage waiter records in such a poll. *)
Definition round_trace (process_name : string) (num_procs : Z) (r : round) : trace :=
  match r with
  | Answers states =>
      answered process_name (range num_procs) states ++
      [EvCmd (Sleep 1) (Returns tt)]
  | Fails states =>
      answered process_name (range num_procs) states ++
      [EvInfo (instance_name process_name (List.length states)) (Raises OSError);
       EvLog Warning warning_text;
       EvCmd (Sleep 1) (Returns tt)]
  end.

(** The poll is one that is retried: complete, not fatal and not all
    terminal, or cut short by the failure. *)
Definition retried (num_procs : Z) (terminal_state : string) (r : round) : bool :=
  match r with
  | Answers states =>
      Nat.eqb (List.length states) (Z.to_nat num_procs)
      && negb (any_fatal states) && negb (all_terminal terminal_state states)
  | Fails states => Nat.ltb (List.length states) (Z.to_nat num_procs)
  end.

Definition script_of (rounds : list round) : list (reply string) :=
  List.concat (map round_script rounds).

Definition trace_of (process_name : string) (num_procs : Z) (rounds : list round) : trace :=
  List.concat (map (round_trace process_name num_procs) rounds).

(** Scripts of whole runs with one fetch and one run instance. *)

(** The autoscaler is seen running once, then exited. *)
Definition healthy : world :=
  scripted [Returns "EXITED"; Returns "RUNNING"; Returns "RUNNING"; Returns "EXITED"]
           (Returns "EXITED").

(** The fetch instance reports FATAL. *)
Definition fetch_fatal : world := scripted [Returns "FATAL"] (Returns "RUNNING").

(** Ctrl-C arrives during the first status query of the steady-state loop. *)
Definition interrupted_run : world :=
  scripted [Returns "EXITED"; Returns "RUNNING"; Raises KeyboardInterrupt]
           (Returns "RUNNING").

(** supervisord stops answering once the autoscaler is started. *)
Definition autoscaler_unreachable : world :=
  scripted [Returns "EXITED"; Returns "RUNNING"; Raises OSError] (Returns "RUNNING").

(** Of two instances the first reports FATAL, then the connection fails;
    both report RUNNING at the next poll. *)
Definition lost_fatal : world :=
  scripted [Returns "FATAL"; Raises OSError; Returns "RUNNING"; Returns "RUNNING"]
           (Returns "RUNNING").

(** Ctrl-C arrives during the sleep that follows [Popen]. *)
Definition interrupted_startup : world :=
  {| answers := []; otherwise := Returns "RUNNING";
     outcomes := [Returns tt; Raises KeyboardInterrupt]; keep_running := true |}.

(** Both stage waits end at their first poll; the autoscaler would report
    RUNNING for ever. *)
Definition never_exits : world :=
  scripted [Returns "EXITED"; Returns "RUNNING"] (Returns "RUNNING").

(** [self.running] when the stop flag is down, whatever the supervisor. *)
Definition stop_requested (w : world) : bool := false.

(** The autoscaler is seen FATAL at the first look. *)
Definition autoscaler_fatal : world :=
  scripted [Returns "EXITED"; Returns "RUNNING"; Returns "FATAL"] (Returns "FATAL").

End Fake.

(** ** The shape of what the program records *)

(** One iteration of the loop of [wait_for_process], by cases on the poll. *)
Inductive iteration (process_name : string) (num_procs : Z) (terminal_state : string)
  : res ctl -> trace -> Prop :=
| It_fatal states :
    List.length states = List.length (range num_procs) ->
    any_fatal states = true ->
    iteration process_name num_procs terminal_state
      (Exc (AutoscalerBootstrapException (could_not_start process_name)))
      (answered process_name (range num_procs) states)
| It_done states :
    List.length states = List.length (range num_procs) ->
    any_fatal states = false ->
    all_terminal terminal_state states = true ->
    iteration process_name num_procs terminal_state
      (Val Break) (answered process_name (range num_procs) states)
| It_pending states o :
    List.length states = List.length (range num_procs) ->
    any_fatal states = false ->
    all_terminal terminal_state states = false ->
    iteration process_name num_procs terminal_state
      (continue_or o)
      (answered process_name (range num_procs) states ++ [EvCmd (Sleep 1) o])
| It_oserror states o :
    List.length states < List.length (range num_procs) ->
    iteration process_name num_procs terminal_state
      (continue_or o)
      (answered process_name (range num_procs) states ++
       [EvInfo (instance_name process_name (List.length states)) (Raises OSError);
        EvLog Warning warning_text;
        EvCmd (Sleep 1) o])
| It_raise states e :
    List.length states < List.length (range num_procs) ->
    e <> OSError ->
    iteration process_name num_procs terminal_state
      (Exc (Raised e))
      (answered process_name (range num_procs) states ++
       [EvInfo (instance_name process_name (List.length states)) (Raises e)]).

(** One iteration of the steady-state loop of [run]. *)
Inductive steady : res ctl -> trace -> Prop :=
| St_stopped : steady (Val Break) []
| St_left state :
    existsb (String.eqb state) SUPERVISORD_RUNNING_STATES = false ->
    steady (Val Break) [EvInfo "autoscaler" (Returns state)]
| St_sleep state o :
    existsb (String.eqb state) SUPERVISORD_RUNNING_STATES = true ->
    steady (continue_or o) [EvInfo "autoscaler" (Returns state); EvCmd (Sleep 5) o]
| St_raise e :
    steady (Exc (Raised e)) [EvInfo "autoscaler" (Raises e)].

(** A loop whose iterations are described by [step], cut by the fuel or
    left by [break] or by an exception. *)
Inductive looping (step : res ctl -> trace -> Prop) : res unit -> trace -> Prop :=
| Loop_fuel : looping step OutOfFuel []
| Loop_break t : step (Val Break) t -> looping step (Val tt) t
| Loop_exc x t : step (Exc x) t -> looping step (Exc x) t
| Loop_continue t r t' :
    step (Val Continue) t -> looping step r t' -> looping step r (t ++ t').

Definition is_raised_query (ev : event) : bool :=
  match ev with EvInfo _ (Raises _) => true | _ => false end.

(** No status query of the trace raised. *)
Definition every_query_answered (t : trace) : bool :=
  forallb (fun ev => match ev with EvInfo _ (Raises _) => false | _ => true end) t.

(** What an event raised, if it did. *)
Definition raised_by (ev : event) : option failure :=
  match ev with
  | EvInfo _ (Raises e) | EvCmd _ (Raises e) => Some e
  | _ => None
  end.

(** A raising call that no [except] clause of the program takes: any
    command, a status query raising something else than OSError, and the
    queries named by [direct], which are made outside [wait_for_process]. *)
Definition unabsorbed (direct : string -> bool) (ev : event) : bool :=
  match ev with
  | EvInfo name (Raises OSError) => direct name
  | EvInfo _ (Raises _) => true
  | EvCmd _ (Raises _) => true
  | _ => false
  end.

(** [t] ends at its first event selected by [p], and [r] is the exception
    that event raised. *)
Definition stops {A} (p : event -> bool) (r : res A) (t : trace) : Prop :=
  forall pre ev post,
    t = pre ++ ev :: post -> p ev = true ->
    post = [] /\ exists e, raised_by ev = Some e /\ r = Exc (Raised e).

Definition no_exception {A} (r : res A) : Prop := forall x, r <> Exc x.

(** The events of a stage wait and of the steady-state loop. *)
Definition is_poll_event (ev : event) : bool :=
  match ev with
  | EvInfo _ _ | EvLog _ _ | EvCmd (Sleep _) _ => true
  | _ => false
  end.

(** [wait_for_process] as a whole: its first log line, then its loop. *)
Definition waiting (process_name : string) (num_procs : Z) (terminal_state : string)
    (r : res unit) (t : trace) : Prop :=
  exists t',
    t = EvLog Info (waiting_text process_name) :: t' /\
    looping (iteration process_name num_procs terminal_state) r t'.

(** What [run] records in its [try] body, by the point where it ends. *)
Inductive body_trace (fetch_proc_count run_proc_count : Z) : res unit -> trace -> Prop :=
| B_fetch r1 t1 :
    waiting "fetch_signals" fetch_proc_count "EXITED" r1 t1 ->
    r1 <> Val tt ->
    body_trace fetch_proc_count run_proc_count r1 t1
| B_start_group t1 e :
    waiting "fetch_signals" fetch_proc_count "EXITED" (Val tt) t1 ->
    body_trace fetch_proc_count run_proc_count (Exc (Raised e))
      (t1 ++ [EvCmd (StartProcessGroup "run_signals") (Raises e)])
| B_run t1 r2 t2 :
    waiting "fetch_signals" fetch_proc_count "EXITED" (Val tt) t1 ->
    waiting "run_signals" run_proc_count "RUNNING" r2 t2 ->
    r2 <> Val tt ->
    body_trace fetch_proc_count run_proc_count r2
      (t1 ++ EvCmd (StartProcessGroup "run_signals") (Returns tt) :: t2)
| B_start_main t1 t2 e :
    waiting "fetch_signals" fetch_proc_count "EXITED" (Val tt) t1 ->
    waiting "run_signals" run_proc_count "RUNNING" (Val tt) t2 ->
    body_trace fetch_proc_count run_proc_count (Exc (Raised e))
      (t1 ++ EvCmd (StartProcessGroup "run_signals") (Returns tt)
          :: t2 ++ [EvCmd (StartProcess "autoscaler") (Raises e)])
| B_steady t1 t2 r3 t3 :
    waiting "fetch_signals" fetch_proc_count "EXITED" (Val tt) t1 ->
    waiting "run_signals" run_proc_count "RUNNING" (Val tt) t2 ->
    looping steady r3 t3 ->
    body_trace fetch_proc_count run_proc_count r3
      (t1 ++ EvCmd (StartProcessGroup "run_signals") (Returns tt)
          :: t2 ++ EvCmd (StartProcess "autoscaler") (Returns tt) :: t3).

(** What leaves a [finally] clause whose call gave [o], with [pending] on
    its way through it. *)
Definition finally_result (pending : res unit) (o : reply unit) : res unit :=
  match o with Returns _ => pending | Raises e => Exc (Raised e) end.

(** What [run] records in its [try / except / finally]. *)
Inductive guarded_trace (fetch_proc_count run_proc_count : Z) : res unit -> trace -> Prop :=
| G_fuel tb :
    body_trace fetch_proc_count run_proc_count OutOfFuel tb ->
    guarded_trace fetch_proc_count run_proc_count OutOfFuel tb
| G_interrupt tb :
    body_trace fetch_proc_count run_proc_count (Exc (Raised KeyboardInterrupt)) tb ->
    guarded_trace fetch_proc_count run_proc_count (Val tt) tb
| G_cleanup rb tb o :
    body_trace fetch_proc_count run_proc_count rb tb ->
    rb <> OutOfFuel ->
    rb <> Exc (Raised KeyboardInterrupt) ->
    guarded_trace fetch_proc_count run_proc_count
      (finally_result rb o) (tb ++ [EvCmd Shutdown o]).

Definition shutting_down_text : string := "Shutting down...".

(** What [run] records. *)
Inductive run_trace (fetch_proc_count run_proc_count : Z) : res unit -> trace -> Prop :=
| R_popen e :
    run_trace fetch_proc_count run_proc_count
      (Exc (Raised e)) [EvCmd Popen (Raises e)]
| R_sleep e :
    run_trace fetch_proc_count run_proc_count
      (Exc (Raised e)) [EvCmd Popen (Returns tt); EvCmd (Sleep 1) (Raises e)]
| R_guarded rg tg :
    guarded_trace fetch_proc_count run_proc_count rg tg ->
    rg <> Val tt ->
    run_trace fetch_proc_count run_proc_count rg
      (EvCmd Popen (Returns tt) :: EvCmd (Sleep 1) (Returns tt) :: tg)
| R_wait tg o :
    guarded_trace fetch_proc_count run_proc_count (Val tt) tg ->
    run_trace fetch_proc_count run_proc_count
      (finally_result (Val tt) o)
      (EvCmd Popen (Returns tt) :: EvCmd (Sleep 1) (Returns tt)
         :: tg ++ [EvLog Info shutting_down_text; EvCmd ProcWait o]).

(** The status query [run] makes itself, in its steady-state loop. *)
Definition direct_query (name : string) : bool := String.eqb name "autoscaler".

(** The RPC calls [run] makes itself in its [try] body. *)
Definition direct_call (ev : event) : bool :=
  match ev with
  | EvInfo name _ => direct_query name
  | EvCmd (StartProcessGroup _) _ | EvCmd (StartProcess _) _ => true
  | _ => false
  end.

(** What [run] records after its [try] body, which ended with [rb], and
    what [run] ends with. *)
Inductive tail_of : res unit -> res unit -> trace -> Prop :=
| T_fuel : tail_of OutOfFuel OutOfFuel []
| T_interrupt o :
    tail_of (Exc (Raised KeyboardInterrupt)) (finally_result (Val tt) o)
      [EvLog Info shutting_down_text; EvCmd ProcWait o]
| T_returned o :
    tail_of (Val tt) (finally_result (Val tt) o)
      [EvCmd Shutdown (Returns tt); EvLog Info shutting_down_text; EvCmd ProcWait o]
| T_shutdown_raised rb e :
    rb <> OutOfFuel -> rb <> Exc (Raised KeyboardInterrupt) ->
    tail_of rb (Exc (Raised e)) [EvCmd Shutdown (Raises e)]
| T_raised x :
    x <> Raised KeyboardInterrupt ->
    tail_of (Exc x) (Exc x) [EvCmd Shutdown (Returns tt)].

(** The events after the [try] body. *)
Definition is_tail_event (ev : event) : bool :=
  match ev with
  | EvCmd Shutdown _ | EvCmd ProcWait _ | EvLog _ _ => true
  | _ => false
  end.

(** The events of the [try] body. *)
Definition is_body_event (ev : event) : bool :=
  match ev with
  | EvInfo _ _ | EvLog _ _ | EvCmd (Sleep _) _
  | EvCmd (StartProcessGroup _) _ | EvCmd (StartProcess _) _ => true
  | _ => false
  end.

(** An OSError of a status query made by a stage wait. *)
Definition absorbed_failure (ev : event) : bool :=
  match ev with
  | EvInfo name (Raises OSError) => negb (direct_query name)
  | _ => false
  end.

(** What is recorded next is the warning and the one-second sleep. *)
Definition backoff (post : trace) : Prop :=
  exists o post',
    post = EvLog Warning warning_text :: EvCmd (Sleep 1) o :: post'.

(** Every event of [t] selected by [p] is followed by a trace in [Q]. *)
Definition followed (p : event -> bool) (Q : trace -> Prop) (t : trace) : Prop :=
  forall pre ev post, t = pre ++ ev :: post -> p ev = true -> Q post.

(** The outcome of a computation bounded by fuel does not depend on the
    bound once it allows the computation to end. *)
Definition stable {World A} (f : nat -> M World A) : Prop :=
  forall fuel w r w' t,
    f fuel w = (r, w', t) -> terminated r = true ->
    forall fuel', fuel <= fuel' -> f fuel' w = (r, w', t).

(** Unfolds the monad of the program. *)
Ltac exec :=
  repeat (progress (unfold bind, try_except, do, get_statename, log, ret, raise,
                    after, is_running, out_of_fuel; cbn beta iota)).

(** ** The environment handed to supervisord *)

(** A Python dict from str to str, by what its lookups give. *)
Definition dict : Type := string -> option string.

(** [d.get(key, default)] *)
Definition dict_get (d : dict) (key default : string) : string :=
  match d key with Some v => v | None => default end.

(** [d[key] = value] *)
Definition dict_set (d : dict) (key value : string) : dict :=
  fun k => if String.eqb k key then Some value else d k.

(** The two options [run] reads; [None] when argparse left one unset. *)
Record options : Type := {
  env_config_path : option string;
  cluster_config_directory : option string
}.

(** The truth value of an option in an [if]: [None] and the empty string
    are false. *)
Definition truthy (o : option string) : bool :=
  match o with Some s => negb (String.eqb s "") | None => false end.

(** What an f-string prints for the option. *)
Definition str_of (o : option string) : string :=
  match o with Some s => s | None => "None" end.

(** The double quote character of the f-strings. *)
Definition dquote : string := String "034"%char EmptyString.

(** The [args] of [run] when it reaches [env["CMAN_ARGS"] = args]. *)
Definition cman_args (opts : options) (environ : dict) : string :=
  let args := dict_get environ "CMAN_ARGS" "" in
  let args :=
    if truthy (env_config_path opts) then
      ("--env-config-path " ++ dquote ++ str_of (env_config_path opts) ++ dquote
         ++ " " ++ args)%string
    else args in
  let args :=
    if truthy (cluster_config_directory opts) then
      ("--cluster-config-directory " ++ dquote
         ++ str_of (cluster_config_directory opts) ++ dquote ++ " " ++ args)%string
    else args in
  args.

(** The [env] of [run] when it is passed to [Popen]: a copy of [os.environ]
    with CMAN_ARGS set. *)
Definition popen_env (opts : options) (environ : dict) : dict :=
  dict_set environ "CMAN_ARGS" (cman_args opts environ).

(** ** Counting polls *)



(** An event of a stage wait: a status query, a log line or [time.sleep(1)]. *)
Definition is_wait_event (ev : event) : bool :=
  match ev with
  | EvInfo _ _ | EvLog _ _ => true
  | EvCmd (Sleep secs) _ => Z.eqb secs 1
  | EvCmd _ _ => false
  end.

(** A status query of the steady-state loop that was answered. *)
Definition main_answered (ev : event) : bool :=
  match ev with
  | EvInfo name (Returns _) => direct_query name
  | _ => false
  end.

Definition is_query (ev : event) : bool :=
  match ev with EvInfo _ _ => true | _ => false end.

(** ** Properties *)

(** *** Lists cut at an event *)

Lemma app_split_at {A} (t t' pre post : list A) (ev : A) :
  t ++ t' = pre ++ ev :: post ->
  (exists post1, t = pre ++ ev :: post1 /\ post = post1 ++ t') \/
  (exists pre2, pre = t ++ pre2 /\ t' = pre2 ++ ev :: post).
Proof.
  revert pre. induction t as [|a t IH]; intros pre H.
  - right. exists pre. split; [reflexivity|exact H].
  - destruct pre as [|b pre]; cbn in H; injection H as -> H.
    + left. exists t. split; [reflexivity|]. now subst.
    + destruct (IH _ H) as [(post1 & -> & ->)|(pre2 & -> & ->)].
      * left. now exists post1.
      * right. now exists pre2.
Qed.

Lemma existsb_split {A} (p : A -> bool) (pre post : list A) (ev : A) :
  p ev = true -> existsb p (pre ++ ev :: post) = true.
Proof.
  intros H. rewrite existsb_app. cbn. rewrite H. now rewrite orb_true_r.
Qed.

(** The one event selected by [p] in a list cuts it in one way only. *)
Lemma unique_split {A} (p : A -> bool) (a b pre post : list A) (x ev : A) :
  existsb p a = false -> existsb p b = false -> p ev = true ->
  a ++ x :: b = pre ++ ev :: post ->
  pre = a /\ ev = x /\ post = b.
Proof.
  intros Ha Hb Hev H. apply app_split_at in H.
  destruct H as [(post1 & -> & _)|(pre2 & -> & H)].
  - now rewrite existsb_split in Ha.
  - destruct pre2 as [|y pre2]; cbn in H; injection H as -> H.
    + now rewrite app_nil_r.
    + subst b. now rewrite existsb_split in Hb.
Qed.

Lemma stops_quiet {A} p (r : res A) t : existsb p t = false -> stops p r t.
Proof. intros H pre ev post -> Hev. now rewrite existsb_split in H. Qed.

Lemma stops_app {A} p (r : res A) a b :
  existsb p a = false -> stops p r b -> stops p r (a ++ b).
Proof.
  intros Ha Hb pre ev post H Hev. apply app_split_at in H.
  destruct H as [(post1 & -> & _)|(pre2 & -> & H)].
  - now rewrite existsb_split in Ha.
  - eapply Hb; eassumption.
Qed.

Lemma stops_last {A} p a ev e :
  existsb p a = false -> raised_by ev = Some e ->
  stops (A := A) p (Exc (Raised e)) (a ++ [ev]).
Proof.
  intros Ha He pre ev' post H Hev. apply app_split_at in H.
  destruct H as [(post1 & -> & _)|(pre2 & -> & H)].
  - now rewrite existsb_split in Ha.
  - destruct pre2 as [|y [|z pre2]]; cbn in H; try discriminate.
    injection H as <- <-. split; [reflexivity|]. now exists e.
Qed.

(** Iterations that stop at an unabsorbed event make a loop that does. *)
Lemma looping_stops (step : res ctl -> trace -> Prop) p :
  (forall r t, step r t -> stops p r t /\ (no_exception r -> existsb p t = false)) ->
  forall r t, looping step r t ->
    stops p r t /\ (no_exception r -> existsb p t = false).
Proof.
  intros Hstep r t H. induction H as [|t Hs|x t Hs|t r t' Hs Hl [IH1 IH2]].
  - split; [now apply stops_quiet|reflexivity].
  - apply Hstep in Hs as [_ Hs]. assert (Q : existsb p t = false)
      by (apply Hs; intros x; discriminate).
    split; [now apply stops_quiet|now intros _].
  - apply Hstep in Hs as [Hs _]. split.
    + intros pre ev post E Hev. destruct (Hs pre ev post E Hev) as [-> (e & He & Hx)].
      split; [reflexivity|]. exists e. split; [exact He|]. now injection Hx as ->.
    + intros N. exfalso; eapply N; reflexivity.
  - apply Hstep in Hs as [_ Hs]. assert (Q : existsb p t = false)
      by (apply Hs; intros x; discriminate).
    split; [now apply stops_app|]. intros N. rewrite existsb_app, Q. now apply IH2.
Qed.

Lemma answered_quiet p process_name idxs states :
  (forall name state, p (EvInfo name (Returns state)) = false) ->
  existsb p (answered process_name idxs states) = false.
Proof.
  intros Hp. unfold answered.
  induction (combine idxs states) as [|[i state] l IH]; [reflexivity|].
  cbn. now rewrite Hp, IH.
Qed.

Lemma iteration_stops direct process_name num_procs terminal_state r t :
  (forall i, direct (instance_name process_name i) = false) ->
  iteration process_name num_procs terminal_state r t ->
  stops (unabsorbed direct) r t /\
  (no_exception r -> existsb (unabsorbed direct) t = false).
Proof.
  intros Hd H.
  assert (Q : forall states,
    existsb (unabsorbed direct) (answered process_name (range num_procs) states) = false)
    by (intros; now apply answered_quiet).
  destruct H as [states L F|states L F T|states [[]|e] L F T|states [[]|e] L|states e L Ne].
  - split; [now apply stops_quiet|]. intros N. exfalso; eapply N; reflexivity.
  - split; [now apply stops_quiet|now intros _].
  - assert (Q' : existsb (unabsorbed direct)
        (answered process_name (range num_procs) states ++
         [EvCmd (Sleep 1) (Returns tt)]) = false)
      by (rewrite existsb_app, Q; reflexivity).
    split; [now apply stops_quiet|now intros _].
  - split; [now apply stops_last|]. intros N. exfalso; eapply N; reflexivity.
  - assert (Q' : existsb (unabsorbed direct)
        (answered process_name (range num_procs) states ++
         [EvInfo (instance_name process_name (List.length states)) (Raises OSError);
          EvLog Warning warning_text; EvCmd (Sleep 1) (Returns tt)]) = false)
      by (rewrite existsb_app, Q; cbn; now rewrite Hd).
    split; [now apply stops_quiet|now intros _].
  - split; [|intros N; exfalso; eapply N; reflexivity].
    change [EvInfo (instance_name process_name (List.length states)) (Raises OSError);
            EvLog Warning warning_text; EvCmd (Sleep 1) (Raises e)]
      with ([EvInfo (instance_name process_name (List.length states)) (Raises OSError);
             EvLog Warning warning_text] ++ [EvCmd (Sleep 1) (Raises e)]).
    rewrite app_assoc. apply stops_last; [|reflexivity].
    rewrite existsb_app, Q. cbn. now rewrite Hd.
  - split; [|intros N; exfalso; eapply N; reflexivity]. apply stops_last; [apply Q|reflexivity].
Qed.

Lemma waiting_stops direct process_name num_procs terminal_state r t :
  (forall i, direct (instance_name process_name i) = false) ->
  waiting process_name num_procs terminal_state r t ->
  stops (unabsorbed direct) r t /\
  (no_exception r -> existsb (unabsorbed direct) t = false).
Proof.
  intros Hd (t' & -> & H).
  apply (looping_stops _ (unabsorbed direct)) in H;
    [|intros r0 t0 H0; now apply (iteration_stops direct _ _ _ _ _ Hd H0)].
  destruct H as [H1 H2]. split; [|exact H2].
  now apply (stops_app _ _ [EvLog Info (waiting_text process_name)]).
Qed.

Section Properties.

Variable World : Type.
Variable getProcessInfo : World -> string -> reply string * World.
Variable perform : World -> command -> reply unit * World.
Variable running : World -> bool.

Lemma answered_nil process_name idxs : answered process_name idxs [] = [].
Proof. unfold answered. destruct idxs; reflexivity. Qed.

Lemma answered_cons process_name i idxs state states :
  answered process_name (i :: idxs) (state :: states) =
  EvInfo (instance_name process_name i) (Returns state)
    :: answered process_name idxs states.
Proof. reflexivity. Qed.

(** The list comprehension: every query answered, or the queries up to the
    first one that raised. *)
Lemma query_states_seq process_name len : forall start w r w' t,
  query_states getProcessInfo process_name (seq start len) w = (r, w', t) ->
  match r with
  | Val states =>
      List.length states = len /\
      t = answered process_name (seq start len) states
  | Exc x =>
      exists states e,
        List.length states < len /\ x = Raised e /\
        t = answered process_name (seq start len) states ++
            [EvInfo (instance_name process_name (start + List.length states))
                    (Raises e)]
  | OutOfFuel => False
  end.
Proof.
  induction len as [|len IH]; intros start w r w' t H.
  - cbn in H. injection H as <- <- <-. split; reflexivity.
  - cbn [seq query_states] in H. unfold bind, get_statename in H.
    destruct (getProcessInfo w (instance_name process_name start)) as [[state|e] w1];
      cbn in H.
    + destruct (query_states getProcessInfo process_name (seq (S start) len) w1)
        as [[[states|x|] w2] t2] eqn:E; apply IH in E; cbn in H.
      * injection H as <- <- <-. destruct E as [L ->].
        rewrite app_nil_r. cbn. split; [lia|reflexivity].
      * injection H as <- <- <-. destruct E as (states & e & L & -> & ->).
        exists (state :: states), e. cbn [List.length seq].
        rewrite answered_cons, Nat.add_succ_r. repeat split. lia.
      * destruct E.
    + injection H as <- <- <-. exists [], e. rewrite answered_nil, Nat.add_0_r.
      cbn. repeat split; lia.
Qed.

(** One iteration of the loop of [wait_for_process], in terms of its poll. *)
Lemma wait_iteration_eq process_name num_procs terminal_state w :
  wait_iteration getProcessInfo perform process_name num_procs terminal_state w =
  match query_states getProcessInfo process_name (range num_procs) w with
  | (Val states, w1, t1) =>
      if any_fatal states then
        (Exc (AutoscalerBootstrapException (could_not_start process_name)), w1, t1)
      else if all_terminal terminal_state states then (Val Break, w1, t1)
      else let '(o, w2) := perform w1 (Sleep 1) in
           (continue_or o, w2, t1 ++ [EvCmd (Sleep 1) o])
  | (Exc x, w1, t1) =>
      if is_OSError x then
        let '(o, w2) := perform w1 (Sleep 1) in
        (continue_or o, w2, t1 ++ [EvLog Warning warning_text; EvCmd (Sleep 1) o])
      else (Exc x, w1, t1)
  | (OutOfFuel, w1, t1) => (OutOfFuel, w1, t1)
  end.
Proof.
  unfold wait_iteration. exec.
  destruct (query_states getProcessInfo process_name (range num_procs) w)
    as [[[states|x|] w1] t1]; cbn beta iota; rewrite ?app_nil_r.
  - destruct (any_fatal states); [now rewrite app_nil_r|].
    destruct (all_terminal terminal_state states); [now rewrite app_nil_r|].
    destruct (perform w1 (Sleep 1)) as [[[]|e] w2]; cbn; now rewrite ?app_nil_r.
  - destruct (is_OSError x); [|reflexivity].
    destruct (perform w1 (Sleep 1)) as [[[]|e] w2]; cbn; now rewrite ?app_nil_r.
  - reflexivity.
Qed.

Lemma while_true_S fuel (body : M World ctl) w :
  while_true (S fuel) body w =
  match body w with
  | (Val Break, w1, t1) => (Val tt, w1, t1)
  | (Val Continue, w1, t1) => after t1 (while_true fuel body w1)
  | (Exc x, w1, t1) => (Exc x, w1, t1)
  | (OutOfFuel, w1, t1) => (OutOfFuel, w1, t1)
  end.
Proof.
  cbn [while_true]. unfold bind, after.
  destruct (body w) as [[[[]|x|] w1] t1]; try reflexivity.
  cbn. now rewrite app_nil_r.
Qed.

Lemma wait_iteration_shape process_name num_procs terminal_state w r w' t :
  wait_iteration getProcessInfo perform process_name num_procs terminal_state w
    = (r, w', t) ->
  iteration process_name num_procs terminal_state r t.
Proof.
  rewrite wait_iteration_eq. unfold range at 1.
  destruct (query_states getProcessInfo process_name (seq 0 (Z.to_nat num_procs)) w)
    as [[[states|x|] w1] t1] eqn:E; apply query_states_seq in E.
  - destruct E as [L ->].
    assert (L' : List.length states = List.length (range num_procs))
      by (unfold range; rewrite length_seq; exact L).
    destruct (any_fatal states) eqn:F.
    + intros H; injection H as <- <- <-. now apply It_fatal.
    + destruct (all_terminal terminal_state states) eqn:T.
      * intros H; injection H as <- <- <-. now apply It_done.
      * destruct (perform w1 (Sleep 1)) as [o w2].
        intros H; injection H as <- <- <-. now apply It_pending.
  - destruct E as (states & e & L & -> & ->).
    assert (L' : List.length states < List.length (range num_procs))
      by (unfold range; rewrite length_seq; exact L).
    destruct e; cbn [is_OSError];
      try (intros H; injection H as <- <- <-; apply It_raise; [assumption|discriminate]).
    destruct (perform w1 (Sleep 1)) as [o w2].
    intros H; injection H as <- <- <-. rewrite <- app_assoc. now apply It_oserror.
  - destruct E.
Qed.

(** A loop records the traces of its iterations one after the other. *)
Lemma while_true_looping (body : M World ctl) (step : res ctl -> trace -> Prop) :
  (forall w r w' t, body w = (r, w', t) -> step r t /\ r <> OutOfFuel) ->
  forall fuel w r w' t,
    while_true fuel body w = (r, w', t) -> looping step r t.
Proof.
  intros Hbody. induction fuel as [|fuel IH]; intros w r w' t H.
  - injection H as <- <- <-. constructor.
  - rewrite while_true_S in H.
    destruct (body w) as [[[[]|x|] w1] t1] eqn:E; apply Hbody in E as [E NF].
    + destruct (while_true fuel body w1) as [[r2 w2] t2] eqn:E2.
      injection H as <- <- <-. apply Loop_continue; [exact E|]. eapply IH, E2.
    + injection H as <- <- <-. now apply Loop_break.
    + injection H as <- <- <-. now apply Loop_exc.
    + now elim NF.
Qed.

Lemma wait_for_process_waiting fuel process_name num_procs terminal_state w r w' t :
  wait_for_process getProcessInfo perform fuel process_name num_procs terminal_state w
    = (r, w', t) ->
  waiting process_name num_procs terminal_state r t.
Proof.
  unfold wait_for_process, waiting. unfold bind at 1, log.
  destruct (while_true fuel _ w) as [[r2 w2] t2] eqn:E.
  intros H; injection H as <- <- <-. exists t2. split; [reflexivity|].
  eapply while_true_looping, E.
  intros w0 r0 w0' t0 H0. apply wait_iteration_shape in H0. split; [exact H0|].
  intros ->. inversion H0 as [| | ? o ? ? ? Ho | ? o ? Ho |]; destruct o; discriminate.
Qed.

Lemma wait_for_process_eq fuel process_name num_procs terminal_state w :
  wait_for_process getProcessInfo perform fuel process_name num_procs terminal_state w =
  after [EvLog Info (waiting_text process_name)]
    (while_true fuel
       (wait_iteration getProcessInfo perform process_name num_procs terminal_state) w).
Proof.
  unfold wait_for_process, bind at 1, log, after.
  now destruct (while_true fuel _ w) as [[r2 w2] t2].
Qed.

(** *** The shape of [run] *)

Lemma bind_eq {A B} (m : M World A) (k : A -> M World B) w :
  bind m k w =
  match m w with
  | (Val a, w1, t1) => after t1 (k a w1)
  | (Exc x, w1, t1) => (Exc x, w1, t1)
  | (OutOfFuel, w1, t1) => (OutOfFuel, w1, t1)
  end.
Proof. reflexivity. Qed.

Lemma do_eq c w :
  do perform c w =
  let '(o, w1) := perform w c in (of_reply o, w1, [EvCmd c o]).
Proof. reflexivity. Qed.

Lemma steady_iteration_shape w r w' t :
  steady_iteration getProcessInfo perform running w = (r, w', t) ->
  steady r t /\ r <> OutOfFuel.
Proof.
  unfold steady_iteration. exec. destruct (running w).
  - destruct (getProcessInfo w "autoscaler") as [[state|e] w1]; cbn [of_reply].
    + destruct (existsb (String.eqb state) SUPERVISORD_RUNNING_STATES) eqn:E.
      * destruct (perform w1 (Sleep 5)) as [[[]|e] w2]; cbn;
          intros H; injection H as <- <- <-; (split; [|discriminate]).
        -- now apply (St_sleep state (Returns tt)).
        -- now apply (St_sleep state (Raises e)).
      * cbn. intros H; injection H as <- <- <-. split; [|discriminate].
        now apply St_left.
    + intros H; injection H as <- <- <-. split; [|discriminate]. apply St_raise.
  - intros H; injection H as <- <- <-. split; [|discriminate]. apply St_stopped.
Qed.

Lemma run_body_shape fuel fetch_proc_count run_proc_count w r w' t :
  run_body getProcessInfo perform running fuel fetch_proc_count run_proc_count w
    = (r, w', t) ->
  body_trace fetch_proc_count run_proc_count r t.
Proof.
  unfold run_body. rewrite bind_eq.
  destruct (wait_for_process _ _ fuel "fetch_signals" _ _ w)
    as [[[[]|x1|] w1] t1] eqn:E1; apply wait_for_process_waiting in E1.
  2,3: intros H; injection H as <- <- <-; now apply B_fetch.
  rewrite bind_eq, do_eq.
  destruct (perform w1 (StartProcessGroup "run_signals")) as [[[]|e] w2]; cbn [of_reply].
  2: { intros H; injection H as <- <- <-. now apply B_start_group. }
  rewrite bind_eq.
  destruct (wait_for_process _ _ fuel "run_signals" _ _ w2)
    as [[[[]|x2|] w3] t2] eqn:E2; apply wait_for_process_waiting in E2.
  2,3: intros H; injection H as <- <- <-; now apply B_run.
  rewrite bind_eq, do_eq.
  destruct (perform w3 (StartProcess "autoscaler")) as [[[]|e] w4]; cbn [of_reply].
  2: { intros H; injection H as <- <- <-. cbn. now apply B_start_main. }
  destruct (while_true fuel _ w4) as [[r3 w5] t3] eqn:E3.
  intros H; injection H as <- <- <-.
  apply (while_true_looping _ steady) in E3; [|apply steady_iteration_shape].
  cbn. now apply B_steady.
Qed.

Lemma run_guarded_shape fuel fetch_proc_count run_proc_count w r w' t :
  run_guarded getProcessInfo perform running fuel fetch_proc_count run_proc_count w
    = (r, w', t) ->
  guarded_trace fetch_proc_count run_proc_count r t.
Proof.
  unfold run_guarded, try_except. rewrite bind_eq.
  destruct (run_body _ _ _ fuel _ _ w) as [[[[]|x|] w1] t1] eqn:E;
    apply run_body_shape in E.
  - unfold ret, cleanup, after. cbn [negb]. rewrite do_eq.
    destruct (perform w1 Shutdown) as [o w2].
    intros H; injection H as <- <- <-. rewrite app_nil_r.
    replace (of_reply o) with (finally_result (Val tt) o) by now destruct o as [[]|].
    apply G_cleanup; [assumption|discriminate..].
  - destruct (is_KeyboardInterrupt x) eqn:K.
    + destruct x as [[]|]; try discriminate K.
      unfold ret, cleanup, after. cbn.
      intros H; injection H as <- <- <-. rewrite !app_nil_r. now apply G_interrupt.
    + unfold cleanup, after. cbn [negb]. rewrite bind_eq, do_eq.
      destruct (perform w1 Shutdown) as [[[]|e] w2]; cbn;
        intros H; injection H as <- <- <-.
      * apply (G_cleanup _ _ (Exc x) t1 (Returns tt)); [assumption|discriminate|].
        intros Hx. injection Hx as ->. discriminate K.
      * apply (G_cleanup _ _ (Exc x) t1 (Raises e)); [assumption|discriminate|].
        intros Hx. injection Hx as ->. discriminate K.
  - intros H; injection H as <- <- <-. now apply G_fuel.
Qed.

Lemma run_shape fuel fetch_proc_count run_proc_count w r w' t :
  run getProcessInfo perform running fuel fetch_proc_count run_proc_count w
    = (r, w', t) ->
  run_trace fetch_proc_count run_proc_count r t.
Proof.
  unfold run. rewrite bind_eq, do_eq.
  destruct (perform w Popen) as [[[]|e] w1]; cbn [of_reply].
  2: { intros H; injection H as <- <- <-. apply R_popen. }
  unfold after. rewrite bind_eq, do_eq.
  destruct (perform w1 (Sleep 1)) as [[[]|e] w2]; cbn [of_reply].
  2: { intros H; injection H as <- <- <-. apply R_sleep. }
  unfold after. rewrite bind_eq.
  destruct (run_guarded _ _ _ fuel _ _ w2) as [[[[]|x|] w3] t3] eqn:E;
    apply run_guarded_shape in E.
  - unfold after. rewrite bind_eq. unfold log at 1, after. rewrite do_eq.
    destruct (perform w3 ProcWait) as [o w4].
    intros H; injection H as <- <- <-.
    replace (of_reply o) with (finally_result (Val tt) o) by now destruct o as [[]|].
    now apply R_wait.
  - intros H; injection H as <- <- <-. now apply R_guarded.
  - intros H; injection H as <- <- <-. now apply R_guarded.
Qed.

(** *** Names of the status queries *)

Lemma string_append_cancel (s a b : string) :
  (s ++ a)%string = (s ++ b)%string -> a = b.
Proof. induction s as [|c s IH]; cbn; [easy|]. intros H. injection H as H. auto. Qed.

Lemma str_of_nat_inj i j : str_of_nat i = str_of_nat j -> i = j.
Proof.
  unfold str_of_nat. intros H. apply DecimalNat.Unsigned.to_uint_inj.
  assert (E : forall k, NilZero.string_of_uint (Nat.to_uint k)
                        = NilEmpty.string_of_uint (Nat.to_uint k)).
  { intros k. destruct (Nat.to_uint k) eqn:E; try reflexivity.
    assert (K : k = 0)
      by (rewrite <- (DecimalNat.Unsigned.of_to k), E; reflexivity).
    subst k. discriminate E. }
  rewrite !E in H. apply (f_equal NilEmpty.uint_of_string) in H.
  rewrite !NilEmpty.usu in H. now injection H.
Qed.

(** Two instances of a group never share an identifier. *)
Lemma instance_name_inj process_name i j :
  instance_name process_name i = instance_name process_name j -> i = j.
Proof.
  unfold instance_name. intros H.
  apply string_append_cancel in H. apply (string_append_cancel ":") in H.
  apply string_append_cancel in H. apply (string_append_cancel "_") in H.
  now apply str_of_nat_inj.
Qed.

Lemma queried_app t t' : queried (t ++ t') = queried t ++ queried t'.
Proof.
  induction t as [|[name r|c r|lvl msg] t IH]; cbn; [reflexivity| |assumption..].
  now rewrite IH.
Qed.

Lemma queried_answered process_name len : forall start states,
  List.length states <= len ->
  queried (answered process_name (seq start len) states)
  = map (instance_name process_name) (seq start (List.length states)).
Proof.
  induction len as [|len IH]; intros start [|state states] L; try reflexivity.
  - cbn in L. lia.
  - cbn [seq List.length]. rewrite answered_cons. cbn [queried map].
    rewrite IH; [reflexivity|cbn in L; lia].
Qed.

Lemma every_query_answered_app t t' :
  every_query_answered (t ++ t') = every_query_answered t && every_query_answered t'.
Proof. apply forallb_app. Qed.

(** The queries of one iteration: indices 0, 1, ... in order, up to the
    instance count unless a query raised. *)
Lemma iteration_queried process_name num_procs terminal_state r t :
  iteration process_name num_procs terminal_state r t ->
  exists k, k <= Z.to_nat num_procs /\
    queried t = map (instance_name process_name) (seq 0 k) /\
    (every_query_answered t = true -> k = Z.to_nat num_procs).
Proof.
  intros [states L F|states L F T|states o L F T|states o L|states e L Ne];
    unfold range in *; rewrite length_seq in L.
  1,2: exists (Z.to_nat num_procs); rewrite queried_answered, L by lia; auto.
  - exists (Z.to_nat num_procs).
    rewrite queried_app, queried_answered, L, app_nil_r by lia. auto.
  - exists (S (List.length states)). rewrite queried_app, queried_answered by lia.
    cbn [queried]. rewrite seq_S, map_app. cbn. repeat split; [lia|].
    rewrite every_query_answered_app. cbn. rewrite andb_false_r. discriminate.
  - exists (S (List.length states)). rewrite queried_app, queried_answered by lia.
    cbn [queried]. rewrite seq_S, map_app. cbn. repeat split; [lia|].
    rewrite every_query_answered_app. cbn. rewrite andb_false_r. discriminate.
Qed.

(** *** How a stage wait ends *)

Lemma looping_end (step : res ctl -> trace -> Prop) r t :
  looping step r t ->
  r = OutOfFuel \/
  exists pre last, t = pre ++ last /\
    ((r = Val tt /\ step (Val Break) last) \/
     (exists x, r = Exc x /\ step (Exc x) last)).
Proof.
  induction 1 as [|t Hs|x t Hs|t r t' Hs Hl IH].
  - now left.
  - right. exists [], t. split; [reflexivity|]. left. now split.
  - right. exists [], t. split; [reflexivity|]. right. now exists x.
  - destruct IH as [->|(pre & last & -> & IH)]; [now left|].
    right. exists (t ++ pre), last. split; [now rewrite app_assoc|exact IH].
Qed.

Lemma iteration_break process_name num_procs terminal_state t :
  iteration process_name num_procs terminal_state (Val Break) t ->
  exists states,
    t = answered process_name (range num_procs) states /\
    List.length states = List.length (range num_procs) /\
    any_fatal states = false /\ all_terminal terminal_state states = true.
Proof.
  intros H. remember (Val Break) as r eqn:E.
  destruct H as [states L F|states L F T|states [[]|e] L F T|states [[]|e] L|states e L Ne];
    try discriminate E.
  now exists states.
Qed.

Lemma iteration_exc process_name num_procs terminal_state x t :
  iteration process_name num_procs terminal_state (Exc x) t ->
  (x = AutoscalerBootstrapException (could_not_start process_name) /\
   exists states,
     t = answered process_name (range num_procs) states /\
     List.length states = List.length (range num_procs) /\
     any_fatal states = true) \/
  (exists pre e, t = pre ++ [EvCmd (Sleep 1) (Raises e)] /\ x = Raised e) \/
  (exists pre name e,
     t = pre ++ [EvInfo name (Raises e)] /\ x = Raised e /\ e <> OSError).
Proof.
  intros H. remember (Exc x) as r eqn:E.
  destruct H as [states L F|states L F T|states [[]|e] L F T|states [[]|e] L|states e L Ne];
    try discriminate E; injection E as <-.
  - left. split; [reflexivity|]. now exists states.
  - right. left. now exists (answered process_name (range num_procs) states), e.
  - right. left.
    exists (answered process_name (range num_procs) states ++
            [EvInfo (instance_name process_name (List.length states)) (Raises OSError);
             EvLog Warning warning_text]), e.
    split; [|reflexivity]. now rewrite <- app_assoc.
  - right. right.
    exists (answered process_name (range num_procs) states),
           (instance_name process_name (List.length states)), e.
    now repeat split.
Qed.

Lemma waiting_returns process_name num_procs terminal_state t :
  waiting process_name num_procs terminal_state (Val tt) t ->
  exists pre states,
    t = pre ++ answered process_name (range num_procs) states /\
    List.length states = List.length (range num_procs) /\
    any_fatal states = false /\ all_terminal terminal_state states = true.
Proof.
  intros (t' & -> & H). apply looping_end in H.
  destruct H as [H|(pre & last & -> & [[_ H]|(x & H & _)])]; try discriminate H.
  apply iteration_break in H as (states & -> & H).
  now exists (EvLog Info (waiting_text process_name) :: pre), states.
Qed.

Lemma waiting_raises process_name num_procs terminal_state x t :
  waiting process_name num_procs terminal_state (Exc x) t ->
  (x = AutoscalerBootstrapException (could_not_start process_name) /\
   exists pre states,
     t = pre ++ answered process_name (range num_procs) states /\
     List.length states = List.length (range num_procs) /\
     any_fatal states = true) \/
  (exists pre e, t = pre ++ [EvCmd (Sleep 1) (Raises e)] /\ x = Raised e) \/
  (exists pre name e,
     t = pre ++ [EvInfo name (Raises e)] /\ x = Raised e /\ e <> OSError).
Proof.
  intros (t' & -> & H). apply looping_end in H.
  destruct H as [H|(pre & last & -> & [[H _]|(y & E & H)])]; try discriminate.
  injection E as <-. set (hd := EvLog Info (waiting_text process_name)).
  apply iteration_exc in H
    as [(-> & states & -> & H)|[(p1 & e & -> & ->)|(p1 & name & e & -> & -> & Ne)]].
  - left. split; [reflexivity|]. now exists (hd :: pre), states.
  - right. left. exists (hd :: pre ++ p1), e. split; [|reflexivity].
    cbn. now rewrite app_assoc.
  - right. right. exists (hd :: pre ++ p1), name, e. repeat split; [|assumption].
    cbn. now rewrite app_assoc.
Qed.

(** A status query that raised OSError is followed by the warning and the
    one-second sleep. *)
Lemma iteration_oserror_followed process_name num_procs terminal_state r t :
  iteration process_name num_procs terminal_state r t ->
  forall pre name post,
    t = pre ++ EvInfo name (Raises OSError) :: post ->
    exists o, post = [EvLog Warning warning_text; EvCmd (Sleep 1) o].
Proof.
  assert (Q : forall states,
    existsb is_raised_query (answered process_name (range num_procs) states) = false)
    by (intros; now apply answered_quiet).
  intros [states L F|states L F T|states o L F T|states o L|states e L Ne]
         pre name post E.
  1,2: specialize (Q states); rewrite E in Q; now rewrite existsb_split in Q.
  - assert (Q' : existsb is_raised_query
        (answered process_name (range num_procs) states ++ [EvCmd (Sleep 1) o]) = false)
      by (rewrite existsb_app, Q; reflexivity).
    rewrite E in Q'. now rewrite existsb_split in Q'.
  - apply (unique_split is_raised_query) in E as (_ & _ & ->);
      [now exists o|apply Q|reflexivity..].
  - apply (unique_split is_raised_query) in E as (_ & E & _);
      [|apply Q|reflexivity..].
    injection E as _ E. now elim Ne.
Qed.

Lemma waiting_oserror_followed process_name num_procs terminal_state r t :
  waiting process_name num_procs terminal_state r t ->
  forall pre name post,
    t = pre ++ EvInfo name (Raises OSError) :: post ->
    exists o post',
      post = EvLog Warning warning_text :: EvCmd (Sleep 1) o :: post'.
Proof.
  intros (t' & -> & H) pre name post E.
  destruct pre as [|hd pre]; cbn in E; [discriminate E|]. injection E as _ E.
  revert pre post E.
  induction H as [|t Hs|x t Hs|t r t' Hs Hl IH]; intros pre post E.
  - now destruct pre.
  - destruct (iteration_oserror_followed _ _ _ _ _ Hs _ _ _ E) as [o ->]. now exists o, [].
  - destruct (iteration_oserror_followed _ _ _ _ _ Hs _ _ _ E) as [o ->]. now exists o, [].
  - apply app_split_at in E as [(post1 & E & ->)|(pre2 & -> & E)].
    + destruct (iteration_oserror_followed _ _ _ _ _ Hs _ _ _ E) as [o ->].
      now exists o, t'.
    + eapply IH, E.
Qed.

(** *** Claims on the stage waiter *)

(** C9.  With [num_procs = 0] the list of states is empty, so [any] is false
    and [all] is true: [wait_for_process] returns in its first iteration,
    having only written its log line; no status query, no sleep. *)
Theorem wait_for_process_zero_instances fuel process_name terminal_state w :
  wait_for_process getProcessInfo perform (S fuel) process_name 0 terminal_state w
  = (Val tt, w, [EvLog Info (waiting_text process_name)]).
Proof. reflexivity. Qed.

(** C8.  Every status query of [wait_for_process] is issued with the name
    [process_name:process_name_i] for an index [0 <= i < num_procs]; one
    iteration queries the indices 0, 1, 2, ... in order, once each, and all
    of [range(num_procs)] when no query raises; two indices never give the
    same name. *)
Theorem status_queries_follow_naming process_name num_procs terminal_state :
  (forall fuel w r w' t,
      wait_for_process getProcessInfo perform fuel process_name num_procs
        terminal_state w = (r, w', t) ->
      forall name, In name (queried t) ->
        exists i, (0 <= Z.of_nat i < num_procs)%Z /\
                  name = instance_name process_name i) /\
  (forall w r w' t,
      wait_iteration getProcessInfo perform process_name num_procs terminal_state w
        = (r, w', t) ->
      exists k, k <= Z.to_nat num_procs /\
        queried t = map (instance_name process_name) (seq 0 k) /\
        (every_query_answered t = true ->
         queried t = map (instance_name process_name) (range num_procs))) /\
  (forall i j, instance_name process_name i = instance_name process_name j -> i = j).
Proof.
  split; [|split].
  - intros fuel w r w' t H name Hin.
    apply wait_for_process_waiting in H as (t' & -> & H). cbn [queried] in Hin.
    induction H as [|t Hs|x t Hs|t r t' Hs Hl IH]; [easy| | |].
    1,2: apply iteration_queried in Hs as (k & Hk & E & _); rewrite E in Hin;
      apply in_map_iff in Hin as (i & <- & Hi); apply in_seq in Hi;
      exists i; split; [lia|reflexivity].
    rewrite queried_app in Hin. apply in_app_or in Hin as [Hin|Hin]; [|auto].
    apply iteration_queried in Hs as (k & Hk & E & _). rewrite E in Hin.
    apply in_map_iff in Hin as (i & <- & Hi). apply in_seq in Hi.
    exists i. split; [lia|reflexivity].
  - intros w r w' t H. apply wait_iteration_shape, iteration_queried in H.
    destruct H as (k & Hk & E & A). exists k. repeat split; [assumption..|].
    intros Q. unfold range. now rewrite <- (A Q).
  - apply instance_name_inj.
Qed.

End Properties.

(** ** The scripted supervisor at work *)

Lemma query_states_cons {World} (getProcessInfo : World -> string -> reply string * World)
    process_name i idxs w :
  query_states getProcessInfo process_name (i :: idxs) w =
  match getProcessInfo w (instance_name process_name i) with
  | (Returns state, w1) =>
      match query_states getProcessInfo process_name idxs w1 with
      | (Val states, w2, t2) =>
          (Val (state :: states), w2,
           EvInfo (instance_name process_name i) (Returns state) :: t2)
      | (Exc x, w2, t2) =>
          (Exc x, w2, EvInfo (instance_name process_name i) (Returns state) :: t2)
      | (OutOfFuel, w2, t2) =>
          (OutOfFuel, w2, EvInfo (instance_name process_name i) (Returns state) :: t2)
      end
  | (Raises e, w1) =>
      (Exc (Raised e), w1, [EvInfo (instance_name process_name i) (Raises e)])
  end.
Proof.
  cbn [query_states]. unfold bind at 1, get_statename.
  destruct (getProcessInfo w (instance_name process_name i)) as [[state|e] w1];
    [|reflexivity].
  cbn [of_reply]. unfold bind, ret.
  destruct (query_states getProcessInfo process_name idxs w1) as [[[states|x|] w2] t2];
    cbn; now rewrite ?app_nil_r.
Qed.

Lemma Fake_query_answers process_name other : forall idxs states rest,
  List.length states = List.length idxs ->
  query_states Fake.getProcessInfo process_name idxs
    (Fake.scripted (map Returns states ++ rest) other)
  = (Val states, Fake.scripted rest other, answered process_name idxs states).
Proof.
  induction idxs as [|i idxs IH]; intros [|state states] rest L; try discriminate L.
  - reflexivity.
  - rewrite query_states_cons. cbn [map app]. unfold Fake.scripted at 1.
    cbn [Fake.getProcessInfo Fake.answers Fake.otherwise Fake.outcomes Fake.keep_running].
    fold (Fake.scripted (map Returns states ++ rest) other).
    rewrite IH by (cbn in L; lia). reflexivity.
Qed.

Lemma Fake_query_fails process_name other e : forall idxs states rest,
  List.length states < List.length idxs ->
  query_states Fake.getProcessInfo process_name idxs
    (Fake.scripted (map Returns states ++ Raises e :: rest) other)
  = (Exc (Raised e), Fake.scripted rest other,
     answered process_name idxs states ++
     [EvInfo (instance_name process_name (nth (List.length states) idxs 0))
             (Raises e)]).
Proof.
  induction idxs as [|i idxs IH]; intros states rest L; [cbn in L; lia|].
  rewrite query_states_cons. destruct states as [|state states].
  - reflexivity.
  - cbn [map app]. unfold Fake.scripted at 1.
    cbn [Fake.getProcessInfo Fake.answers Fake.otherwise Fake.outcomes Fake.keep_running].
    fold (Fake.scripted (map Returns states ++ Raises e :: rest) other).
    rewrite IH by (cbn in L; lia). reflexivity.
Qed.

(** One retried poll of the script: the loop body goes through it and asks
    for another iteration. *)
Lemma Fake_round process_name num_procs terminal_state other r rest :
  Fake.retried num_procs terminal_state r = true ->
  wait_iteration Fake.getProcessInfo Fake.perform process_name num_procs terminal_state
    (Fake.scripted (Fake.round_script r ++ rest) other)
  = (Val Continue, Fake.scripted rest other,
     Fake.round_trace process_name num_procs r).
Proof.
  intros H. rewrite wait_iteration_eq. destruct r as [states|states]; cbn in H.
  - apply andb_prop in H as [H T]. apply andb_prop in H as [L F].
    apply Nat.eqb_eq in L. apply negb_true_iff in F, T.
    cbn [Fake.round_script].
    rewrite Fake_query_answers by (unfold range; now rewrite length_seq).
    now rewrite F, T.
  - apply Nat.ltb_lt in H. cbn [Fake.round_script]. rewrite <- app_assoc. cbn [app].
    rewrite Fake_query_fails by (unfold range; now rewrite length_seq).
    cbn [is_OSError]. unfold range at 2. rewrite seq_nth by exact H.
    cbn. now rewrite <- app_assoc.
Qed.

(** A script of retried polls: the loop spends one iteration on each. *)
Lemma Fake_rounds process_name num_procs terminal_state other rest fuel :
  forall rounds,
    forallb (Fake.retried num_procs terminal_state) rounds = true ->
    while_true (List.length rounds + fuel)
      (wait_iteration Fake.getProcessInfo Fake.perform process_name num_procs
         terminal_state)
      (Fake.scripted (Fake.script_of rounds ++ rest) other)
    = after (Fake.trace_of process_name num_procs rounds)
        (while_true fuel
           (wait_iteration Fake.getProcessInfo Fake.perform process_name num_procs
              terminal_state)
           (Fake.scripted rest other)).
Proof.
  induction rounds as [|r rounds IH]; intros H.
  - cbn. unfold after. now destruct (while_true fuel _ _) as [[r w] t].
  - cbn in H. apply andb_prop in H as [Hr H].
    cbn [List.length Nat.add]. rewrite while_true_S.
    unfold Fake.script_of, Fake.trace_of. cbn [map List.concat].
    rewrite <- app_assoc. fold (Fake.script_of rounds).
    rewrite (Fake_round _ _ _ _ _ _ Hr), (IH H).
    unfold after. destruct (while_true fuel _ _) as [[r2 w2] t2].
    fold (Fake.trace_of process_name num_procs rounds). now rewrite app_assoc.
Qed.

(** With fewer iterations than retried polls the loop is still polling. *)
Lemma Fake_rounds_short process_name num_procs terminal_state other rest :
  forall rounds fuel,
    forallb (Fake.retried num_procs terminal_state) rounds = true ->
    fuel <= List.length rounds ->
    exists w t,
      while_true fuel
        (wait_iteration Fake.getProcessInfo Fake.perform process_name num_procs
           terminal_state)
        (Fake.scripted (Fake.script_of rounds ++ rest) other)
      = (OutOfFuel, w, t).
Proof.
  induction rounds as [|r rounds IH]; intros fuel H L.
  - cbn in L. assert (fuel = 0) as -> by lia. now eexists _, _.
  - destruct fuel as [|fuel]; [now eexists _, _|].
    cbn in H. apply andb_prop in H as [Hr H].
    rewrite while_true_S. unfold Fake.script_of. cbn [map List.concat].
    rewrite <- app_assoc. fold (Fake.script_of rounds).
    rewrite (Fake_round _ _ _ _ _ _ Hr).
    destruct (IH fuel H) as (w & t & ->); [cbn in L; lia|]. now eexists _, _.
Qed.

Lemma all_terminal_answered process_name terminal_state : forall idxs states,
  all_terminal terminal_state states = true ->
  List.length states = List.length idxs ->
  answered process_name idxs states
  = map (fun i => EvInfo (instance_name process_name i) (Returns terminal_state)) idxs.
Proof.
  induction idxs as [|i idxs IH]; intros [|state states] T L; try discriminate L.
  - reflexivity.
  - cbn in T. apply andb_prop in T as [E T]. apply String.eqb_eq in E. subst state.
    rewrite answered_cons. cbn [map]. rewrite IH; [reflexivity|exact T|].
    cbn in L. lia.
Qed.

Lemma all_terminal_not_fatal terminal_state states :
  terminal_state <> "FATAL" ->
  all_terminal terminal_state states = true -> any_fatal states = false.
Proof.
  intros N. unfold all_terminal, any_fatal.
  induction states as [|state states IH]; [reflexivity|].
  cbn. intros T. apply andb_prop in T as [E T]. apply String.eqb_eq in E. subst state.
  rewrite (IH T), orb_false_r. now apply String.eqb_neq.
Qed.

Lemma all_terminal_repeat terminal_state k :
  all_terminal terminal_state (repeat terminal_state k) = true.
Proof. induction k as [|k IH]; cbn; [reflexivity|]. now rewrite String.eqb_refl. Qed.

(** The script ends with a poll in which every instance reports the
    terminal state: the loop leaves at once. *)
Lemma Fake_final process_name num_procs terminal_state other rest fuel :
  terminal_state <> "FATAL" ->
  while_true (S fuel)
    (wait_iteration Fake.getProcessInfo Fake.perform process_name num_procs
       terminal_state)
    (Fake.scripted (repeat (Returns terminal_state) (Z.to_nat num_procs) ++ rest) other)
  = (Val tt, Fake.scripted rest other,
     all_report process_name num_procs terminal_state).
Proof.
  intros N. rewrite while_true_S, wait_iteration_eq, <- map_repeat.
  rewrite Fake_query_answers
    by (unfold range; now rewrite repeat_length, length_seq).
  rewrite (all_terminal_not_fatal terminal_state) by auto using all_terminal_repeat.
  rewrite all_terminal_repeat. unfold all_report.
  rewrite (all_terminal_answered _ terminal_state); auto using all_terminal_repeat.
  unfold range. now rewrite repeat_length, length_seq.
Qed.

(** ** The stage waiter *)

Section StageWaiter.

Variable World : Type.
Variable getProcessInfo : World -> string -> reply string * World.
Variable perform : World -> command -> reply unit * World.

(** C3, as the code has it.  A poll in which every status query answers and
    some instance reports FATAL ends [wait_for_process] then and there with
    AutoscalerBootstrapException, whose message names the group: nothing is
    recorded after the poll, no sleep and no further query, be it the first
    poll or a later one.  And this exception only ever comes out of such a
    poll.  A poll that a query cuts with OSError is retried after the warning
    and the sleep, whatever was read in it. *)
Theorem fatal_poll_aborts_wait process_name num_procs terminal_state :
  (forall fuel w w1 states t1,
      query_states getProcessInfo process_name (range num_procs) w
        = (Val states, w1, t1) ->
      any_fatal states = true ->
      wait_for_process getProcessInfo perform (S fuel) process_name num_procs
        terminal_state w
      = (Exc (AutoscalerBootstrapException (could_not_start process_name)), w1,
         EvLog Info (waiting_text process_name) :: t1) /\
      while_true (S fuel)
        (wait_iteration getProcessInfo perform process_name num_procs terminal_state) w
      = (Exc (AutoscalerBootstrapException (could_not_start process_name)), w1, t1)) /\
  (forall fuel w msg w' t,
      wait_for_process getProcessInfo perform fuel process_name num_procs
        terminal_state w
      = (Exc (AutoscalerBootstrapException msg), w', t) ->
      msg = could_not_start process_name /\
      exists pre states,
        t = pre ++ answered process_name (range num_procs) states /\
        List.length states = List.length (range num_procs) /\
        any_fatal states = true) /\
  (forall fuel w w1 t1 w2,
      query_states getProcessInfo process_name (range num_procs) w
        = (Exc (Raised OSError), w1, t1) ->
      perform w1 (Sleep 1) = (Returns tt, w2) ->
      while_true (S fuel)
        (wait_iteration getProcessInfo perform process_name num_procs terminal_state) w
      = after (t1 ++ [EvLog Warning warning_text; EvCmd (Sleep 1) (Returns tt)])
          (while_true fuel
             (wait_iteration getProcessInfo perform process_name num_procs
                terminal_state) w2)).
Proof.
  split; [|split].
  - intros fuel w w1 states t1 Q F.
    assert (E : while_true (S fuel)
      (wait_iteration getProcessInfo perform process_name num_procs terminal_state) w
      = (Exc (AutoscalerBootstrapException (could_not_start process_name)), w1, t1))
      by (now rewrite while_true_S, wait_iteration_eq, Q, F).
    split; [|exact E]. now rewrite wait_for_process_eq, E.
  - intros fuel w msg w' t H.
    apply wait_for_process_waiting, waiting_raises in H.
    destruct H as [(E & H)|[(pre & e & _ & E)|(pre & name & e & _ & E & _)]];
      try discriminate E.
    injection E as ->. now split.
  - intros fuel w w1 t1 w2 Q S1.
    now rewrite while_true_S, wait_iteration_eq, Q, S1.
Qed.

(** C10.  Of the exceptions a status query can raise, [wait_for_process]
    takes OSError alone: a query raising anything else is the last thing it
    does, and that exception is its outcome; a query raising OSError is
    followed by the warning and the one-second sleep. *)
Theorem only_oserror_is_absorbed process_name num_procs terminal_state
    fuel w r w' t pre name e post :
  wait_for_process getProcessInfo perform fuel process_name num_procs terminal_state w
    = (r, w', t) ->
  t = pre ++ EvInfo name (Raises e) :: post ->
  (e <> OSError -> post = [] /\ r = Exc (Raised e)) /\
  (e = OSError ->
   exists o post', post = EvLog Warning warning_text :: EvCmd (Sleep 1) o :: post').
Proof.
  intros H E. apply wait_for_process_waiting in H. split.
  - intros Ne.
    apply (waiting_stops (fun _ => false)) in H as [H _]; [|reflexivity].
    destruct (H pre _ post E) as (-> & e' & R & ->); [now destruct e|].
    injection R as <-. now split.
  - intros ->. eapply waiting_oserror_followed; eassumption.
Qed.

(** C5.  [wait_for_process] returns exactly on a poll in which every
    instance reports the terminal state: a return is preceded by such a
    poll, and such a poll, be it the first one, ends the wait with nothing
    recorded after it (no sleep).  A complete poll that is neither fatal nor
    all terminal is followed by [time.sleep(1)] and, when the sleep returns,
    by the next iteration.  Retries are not bounded: a script of any number
    of retried polls followed by a terminal one gives a return once the fuel
    exceeds their number, and no return before. *)
Theorem wait_returns_on_terminal_poll process_name num_procs terminal_state :
  terminal_state <> "FATAL" ->
  (forall fuel w w' t,
      wait_for_process getProcessInfo perform fuel process_name num_procs
        terminal_state w = (Val tt, w', t) ->
      exists pre, t = pre ++ all_report process_name num_procs terminal_state) /\
  (forall fuel w w1 states t1,
      query_states getProcessInfo process_name (range num_procs) w
        = (Val states, w1, t1) ->
      all_terminal terminal_state states = true ->
      t1 = all_report process_name num_procs terminal_state /\
      wait_for_process getProcessInfo perform (S fuel) process_name num_procs
        terminal_state w
      = (Val tt, w1, EvLog Info (waiting_text process_name) :: t1) /\
      while_true (S fuel)
        (wait_iteration getProcessInfo perform process_name num_procs terminal_state) w
      = (Val tt, w1, t1)) /\
  (forall fuel w w1 states t1 o w2,
      query_states getProcessInfo process_name (range num_procs) w
        = (Val states, w1, t1) ->
      any_fatal states = false ->
      all_terminal terminal_state states = false ->
      perform w1 (Sleep 1) = (o, w2) ->
      wait_iteration getProcessInfo perform process_name num_procs terminal_state w
      = (continue_or o, w2, t1 ++ [EvCmd (Sleep 1) o]) /\
      (o = Returns tt ->
       while_true (S fuel)
         (wait_iteration getProcessInfo perform process_name num_procs terminal_state) w
       = after (t1 ++ [EvCmd (Sleep 1) o])
           (while_true fuel
              (wait_iteration getProcessInfo perform process_name num_procs
                 terminal_state) w2))) /\
  (forall rounds other,
      forallb (Fake.retried num_procs terminal_state) rounds = true ->
      (forall fuel,
          Fake.wait_for_process (S (List.length rounds + fuel)) process_name num_procs
            terminal_state
            (Fake.scripted
               (Fake.script_of rounds ++
                repeat (Returns terminal_state) (Z.to_nat num_procs)) other)
          = (Val tt, Fake.scripted [] other,
             EvLog Info (waiting_text process_name)
               :: Fake.trace_of process_name num_procs rounds ++
                  all_report process_name num_procs terminal_state)) /\
      (forall fuel, fuel <= List.length rounds ->
          exists w t,
            Fake.wait_for_process fuel process_name num_procs terminal_state
              (Fake.scripted
                 (Fake.script_of rounds ++
                  repeat (Returns terminal_state) (Z.to_nat num_procs)) other)
            = (OutOfFuel, w, t))).
Proof.
  intros N. repeat split.
  - intros fuel w w' t H.
    apply wait_for_process_waiting, waiting_returns in H
      as (pre & states & -> & L & F & T).
    exists pre. unfold all_report. now rewrite <- (all_terminal_answered _ _ _ _ T L).
  - apply query_states_seq in H as [L ->]. apply all_terminal_answered; [assumption|].
    unfold range. now rewrite length_seq.
  - rewrite wait_for_process_eq, while_true_S, wait_iteration_eq, H, H0.
    now rewrite (all_terminal_not_fatal terminal_state).
  - rewrite while_true_S, wait_iteration_eq, H, H0.
    now rewrite (all_terminal_not_fatal terminal_state).
  - now rewrite wait_iteration_eq, H, H0, H1, H2.
  - intros ->. now rewrite while_true_S, wait_iteration_eq, H, H0, H1, H2.
  - intros fuel. unfold Fake.wait_for_process. rewrite wait_for_process_eq.
    replace (S (List.length rounds + fuel)) with (List.length rounds + S fuel) by lia.
    rewrite Fake_rounds by assumption.
    rewrite <- (app_nil_r (repeat _ _)), Fake_final by assumption. reflexivity.
  - intros fuel L. unfold Fake.wait_for_process.
    destruct (Fake_rounds_short process_name num_procs terminal_state other
                (repeat (Returns terminal_state) (Z.to_nat num_procs))
                rounds fuel H L) as (w & t & E).
    rewrite wait_for_process_eq, E. now eexists _, _.
Qed.

(** C6.  An OSError of a status query never is the outcome of
    [wait_for_process]: when it ends with an exception, that is the fatal
    poll's, or what cut a sleep, or what a query raised other than OSError.
    The failing query is followed by the warning and the one-second sleep,
    and the loop polls again when the sleep returns.  So for any number of
    polls cut by OSError, followed by a poll in which every instance reports
    the terminal state, the wait returns, once. *)
Theorem connectivity_failures_are_retried process_name num_procs terminal_state :
  terminal_state <> "FATAL" ->
  (forall fuel w x w' t,
      wait_for_process getProcessInfo perform fuel process_name num_procs
        terminal_state w = (Exc x, w', t) ->
      x = AutoscalerBootstrapException (could_not_start process_name) \/
      (exists pre e, t = pre ++ [EvCmd (Sleep 1) (Raises e)] /\ x = Raised e) \/
      (exists pre name e,
          t = pre ++ [EvInfo name (Raises e)] /\ x = Raised e /\ e <> OSError)) /\
  (forall fuel w r w' t pre name post,
      wait_for_process getProcessInfo perform fuel process_name num_procs
        terminal_state w = (r, w', t) ->
      t = pre ++ EvInfo name (Raises OSError) :: post ->
      exists o post',
        post = EvLog Warning warning_text :: EvCmd (Sleep 1) o :: post') /\
  (forall fuel w w1 t1 w2,
      query_states getProcessInfo process_name (range num_procs) w
        = (Exc (Raised OSError), w1, t1) ->
      perform w1 (Sleep 1) = (Returns tt, w2) ->
      while_true (S fuel)
        (wait_iteration getProcessInfo perform process_name num_procs terminal_state) w
      = after (t1 ++ [EvLog Warning warning_text; EvCmd (Sleep 1) (Returns tt)])
          (while_true fuel
             (wait_iteration getProcessInfo perform process_name num_procs
                terminal_state) w2)) /\
  (forall failures other fuel,
      forallb (Fake.retried num_procs terminal_state) (map Fake.Fails failures) = true ->
      Fake.wait_for_process (S (List.length failures + fuel)) process_name num_procs
        terminal_state
        (Fake.scripted
           (Fake.script_of (map Fake.Fails failures) ++
            repeat (Returns terminal_state) (Z.to_nat num_procs)) other)
      = (Val tt, Fake.scripted [] other,
         EvLog Info (waiting_text process_name)
           :: Fake.trace_of process_name num_procs (map Fake.Fails failures) ++
              all_report process_name num_procs terminal_state)).
Proof.
  intros N. repeat split.
  - intros fuel w x w' t H.
    apply wait_for_process_waiting, waiting_raises in H.
    destruct H as [(E & _)|[H|H]]; auto.
  - intros fuel w r w' t pre name post H E.
    apply wait_for_process_waiting in H. eapply waiting_oserror_followed; eassumption.
  - intros fuel w w1 t1 w2 Q S1.
    now rewrite while_true_S, wait_iteration_eq, Q, S1.
  - intros failures other fuel H. unfold Fake.wait_for_process.
    rewrite wait_for_process_eq.
    replace (S (List.length failures + fuel))
      with (List.length (map Fake.Fails failures) + S fuel)
      by (rewrite length_map; lia).
    rewrite Fake_rounds by assumption.
    rewrite <- (app_nil_r (repeat _ _)), Fake_final by assumption. reflexivity.
Qed.

End StageWaiter.

(** ** The controller *)

Lemma looping_forallb (step : res ctl -> trace -> Prop) p :
  (forall r t, step r t -> forallb p t = true) ->
  forall r t, looping step r t -> forallb p t = true.
Proof.
  intros Hs r t H. induction H as [|t H|x t H|t r t' H Hl IH]; eauto.
  rewrite forallb_app, IH. now rewrite (Hs _ _ H).
Qed.

Lemma answered_forallb p process_name idxs states :
  (forall name state, p (EvInfo name (Returns state)) = true) ->
  forallb p (answered process_name idxs states) = true.
Proof.
  intros Hp. unfold answered.
  induction (combine idxs states) as [|[i state] l IH]; [reflexivity|].
  cbn. now rewrite Hp, IH.
Qed.

Lemma waiting_polls process_name num_procs terminal_state r t :
  waiting process_name num_procs terminal_state r t ->
  forallb is_poll_event t = true.
Proof.
  intros (t' & -> & H). cbn. apply (looping_forallb _ is_poll_event) in H; [exact H|].
  intros r0 t0 [states L F|states L F T|states o L F T|states o L|states e L Ne];
    rewrite ?forallb_app, answered_forallb; reflexivity.
Qed.

Lemma steady_polls r t : looping steady r t -> forallb is_poll_event t = true.
Proof.
  apply looping_forallb. now intros r0 t0 [|state E|state o E|e].
Qed.

(** A predicate that selects no poll event selects nothing in a list of them. *)
Lemma quiet_of_polls p t :
  (forall ev, is_poll_event ev = true -> p ev = false) ->
  forallb is_poll_event t = true -> existsb p t = false.
Proof.
  intros Hp. induction t as [|ev t IH]; [reflexivity|]. cbn.
  intros H. apply andb_prop in H as [H1 H2]. now rewrite (Hp _ H1), IH.
Qed.

Lemma body_events fetch_proc_count run_proc_count rb tb :
  body_trace fetch_proc_count run_proc_count rb tb ->
  forallb is_body_event tb = true.
Proof.
  assert (P : forall t, forallb is_poll_event t = true -> forallb is_body_event t = true).
  { intros t H. rewrite forallb_forall in *. intros ev Hin.
    specialize (H ev Hin). now destruct ev as [| [] |]. }
  intros [r1 t1 W1 N|t1 e W1|t1 r2 t2 W1 W2 N|t1 t2 e W1 W2|t1 t2 r3 t3 W1 W2 L3];
    apply waiting_polls, P in W1; try (apply waiting_polls, P in W2);
    try (apply steady_polls, P in L3);
    repeat (rewrite ?forallb_app; cbn [forallb is_body_event andb]);
    now rewrite ?W1, ?W2, ?L3.
Qed.

Lemma calls_app c a b : calls c (a ++ b) = calls c a + calls c b.
Proof. unfold calls. now rewrite filter_app, length_app. Qed.

Lemma calls_none c t :
  (forall ev, In ev t -> is_cmd c ev = false) -> calls c t = 0.
Proof.
  unfold calls. induction t as [|ev t IH]; [reflexivity|]. intros H. cbn.
  rewrite (H ev) by now left. apply IH. intros ev' Hin. apply H. now right.
Qed.

(** The [try] body calls neither [shutdown()] nor [wait()]. *)
Lemma body_calls fetch_proc_count run_proc_count rb tb :
  body_trace fetch_proc_count run_proc_count rb tb ->
  calls Shutdown tb = 0 /\ calls ProcWait tb = 0.
Proof.
  intros H. apply body_events in H. rewrite forallb_forall in H.
  split; apply calls_none; intros ev Hin; specialize (H ev Hin);
    now destruct ev as [| [] |].
Qed.

Lemma steady_stops r t :
  steady r t ->
  stops (unabsorbed direct_query) r t /\
  (no_exception r -> existsb (unabsorbed direct_query) t = false).
Proof.
  intros [|state E|state [[]|e] E|e].
  - split; [now apply stops_quiet|reflexivity].
  - split; [now apply stops_quiet|reflexivity].
  - split; [now apply stops_quiet|reflexivity].
  - split; [|intros N; exfalso; eapply N; reflexivity].
    now apply (stops_last _ [EvInfo "autoscaler" (Returns state)]).
  - split; [|intros N; exfalso; eapply N; reflexivity].
    apply (stops_last _ []); reflexivity.
Qed.

Lemma stage_is_not_direct process_name i :
  process_name = "fetch_signals" \/ process_name = "run_signals" ->
  direct_query (instance_name process_name i) = false.
Proof. now intros [-> | ->]. Qed.

(** An exception that no [except] clause takes ends the [try] body. *)
Lemma body_stops fetch_proc_count run_proc_count rb tb :
  body_trace fetch_proc_count run_proc_count rb tb ->
  stops (unabsorbed direct_query) rb tb /\
  (no_exception rb -> existsb (unabsorbed direct_query) tb = false).
Proof.
  assert (W : forall pn n ts t,
    pn = "fetch_signals" \/ pn = "run_signals" ->
    waiting pn n ts (Val tt) t -> existsb (unabsorbed direct_query) t = false).
  { intros pn n ts t Hpn H. apply (waiting_stops direct_query) in H as [_ H].
    - apply H. intros x; discriminate.
    - intros i. now apply stage_is_not_direct. }
  intros [r1 t1 W1 N|t1 e W1|t1 r2 t2 W1 W2 N|t1 t2 e W1 W2|t1 t2 r3 t3 W1 W2 L3].
  - eapply waiting_stops; [|exact W1]. intros i. apply stage_is_not_direct. now left.
  - apply W in W1; [|now left]. split; [now apply stops_last|].
    intros N; exfalso; eapply N; reflexivity.
  - apply W in W1; [|now left].
    apply (waiting_stops direct_query) in W2 as [S2 Q2];
      [|intros i; apply stage_is_not_direct; now right].
    split.
    + apply stops_app; [exact W1|].
      now apply (stops_app _ _ [EvCmd (StartProcessGroup "run_signals") (Returns tt)]).
    + intros Ne. rewrite existsb_app, W1. cbn. now apply Q2.
  - apply W in W1; [|now left]. apply W in W2; [|now right]. split.
    + apply stops_app; [exact W1|].
      apply (stops_app _ _ [EvCmd (StartProcessGroup "run_signals") (Returns tt)]);
        [reflexivity|]. now apply stops_last.
    + intros N; exfalso; eapply N; reflexivity.
  - apply W in W1; [|now left]. apply W in W2; [|now right].
    apply (looping_stops _ (unabsorbed direct_query)) in L3 as [S3 Q3];
      [|apply steady_stops].
    split.
    + apply stops_app; [exact W1|].
      apply (stops_app _ _ [EvCmd (StartProcessGroup "run_signals") (Returns tt)]);
        [reflexivity|]. apply stops_app; [exact W2|].
      now apply (stops_app _ _ [EvCmd (StartProcess "autoscaler") (Returns tt)]).
    + intros Ne. rewrite existsb_app, W1. cbn. rewrite existsb_app, W2. cbn.
      now apply Q3.
Qed.

(** The event selected by [p] in the middle one of three lists. *)
Lemma middle_split {A} (p : A -> bool) (a b c pre post : list A) (ev : A) :
  existsb p a = false -> existsb p c = false -> p ev = true ->
  a ++ b ++ c = pre ++ ev :: post ->
  exists pre1 post1, b = pre1 ++ ev :: post1 /\ pre = a ++ pre1 /\ post = post1 ++ c.
Proof.
  intros Ha Hc Hev H. apply app_split_at in H.
  destruct H as [(post1 & -> & _)|(pre2 & -> & H)].
  - now rewrite existsb_split in Ha.
  - apply app_split_at in H. destruct H as [(post1 & -> & ->)|(pre3 & -> & ->)].
    + now exists pre2, post1.
    + now rewrite existsb_split in Hc.
Qed.

Lemma followed_quiet p Q t : existsb p t = false -> followed p Q t.
Proof. intros H pre ev post -> Hev. now rewrite existsb_split in H. Qed.

Lemma followed_app p (Q : trace -> Prop) a b :
  (forall x y, Q x -> Q (x ++ y)) ->
  followed p Q a -> followed p Q b -> followed p Q (a ++ b).
Proof.
  intros HQ Ha Hb pre ev post H Hev. apply app_split_at in H.
  destruct H as [(post1 & -> & ->)|(pre2 & -> & ->)].
  - apply HQ. eapply Ha; [reflexivity|exact Hev].
  - eapply Hb; [reflexivity|exact Hev].
Qed.

Lemma backoff_app x y : backoff x -> backoff (x ++ y).
Proof. intros (o & post' & ->). now exists o, (post' ++ y). Qed.

Lemma absorbed_failure_inv ev :
  absorbed_failure ev = true ->
  exists name, ev = EvInfo name (Raises OSError) /\ direct_query name = false.
Proof.
  destruct ev as [name [state|[]]| |]; try discriminate.
  cbn. intros H. apply negb_true_iff in H. now exists name.
Qed.

Lemma waiting_backoff process_name num_procs terminal_state r t :
  waiting process_name num_procs terminal_state r t ->
  followed absorbed_failure backoff t.
Proof.
  intros H pre ev post E Hev. apply absorbed_failure_inv in Hev as (name & -> & _).
  destruct (waiting_oserror_followed _ _ _ _ _ H _ _ _ E) as (o & post' & ->).
  now exists o, post'.
Qed.

Lemma steady_no_absorbed r t :
  looping steady r t -> existsb absorbed_failure t = false.
Proof.
  induction 1 as [|t H|x t H|t r t' H Hl IH]; [reflexivity| | |];
    try rewrite existsb_app, IH, orb_false_r;
    now destruct H as [|state E|state o E|[]].
Qed.

Lemma body_backoff fetch_proc_count run_proc_count rb tb :
  body_trace fetch_proc_count run_proc_count rb tb ->
  followed absorbed_failure backoff tb.
Proof.
  intros [r1 t1 W1 N|t1 e W1|t1 r2 t2 W1 W2 N|t1 t2 e W1 W2|t1 t2 r3 t3 W1 W2 L3];
    apply waiting_backoff in W1; try apply waiting_backoff in W2;
    try apply steady_no_absorbed in L3.
  - exact W1.
  - apply followed_app; [apply backoff_app|exact W1|now apply followed_quiet].
  - apply followed_app; [apply backoff_app|exact W1|].
    now apply (followed_app _ _ [EvCmd (StartProcessGroup "run_signals") (Returns tt)]);
      [apply backoff_app|apply followed_quiet|].
  - apply followed_app; [apply backoff_app|exact W1|].
    apply (followed_app _ _ [EvCmd (StartProcessGroup "run_signals") (Returns tt)]);
      [apply backoff_app|now apply followed_quiet|].
    apply followed_app; [apply backoff_app|exact W2|now apply followed_quiet].
  - apply followed_app; [apply backoff_app|exact W1|].
    apply (followed_app _ _ [EvCmd (StartProcessGroup "run_signals") (Returns tt)]);
      [apply backoff_app|now apply followed_quiet|].
    apply followed_app; [apply backoff_app|exact W2|].
    apply (followed_app _ _ [EvCmd (StartProcess "autoscaler") (Returns tt)]);
      [apply backoff_app|now apply followed_quiet|now apply followed_quiet].
Qed.

(** How the [try] body and what follows it make up a run. *)
Lemma run_segments fetch_proc_count run_proc_count r t :
  run_trace fetch_proc_count run_proc_count r t ->
  (exists e, t = [EvCmd Popen (Raises e)] /\ r = Exc (Raised e)) \/
  (exists e, t = [EvCmd Popen (Returns tt); EvCmd (Sleep 1) (Raises e)] /\
             r = Exc (Raised e)) \/
  (exists rb tb tail,
      body_trace fetch_proc_count run_proc_count rb tb /\
      tail_of rb r tail /\
      t = EvCmd Popen (Returns tt) :: EvCmd (Sleep 1) (Returns tt) :: tb ++ tail).
Proof.
  intros [e|e|rg tg G N|tg o G].
  - left. now exists e.
  - right. left. now exists e.
  - right. right. destruct G as [tb B|tb B|rb tb [[]|e] B N1 N2].
    + exists OutOfFuel, tb, []. rewrite app_nil_r. repeat split; [exact B|constructor].
    + now elim N.
    + cbn in N. destruct rb as [[]|x|]; try now elim N. try now elim N1.
      exists (Exc x), tb, [EvCmd Shutdown (Returns tt)].
      repeat split; [exact B|]. constructor. intros ->. now elim N2.
    + exists rb, tb, [EvCmd Shutdown (Raises e)].
      repeat split; [exact B|]. now constructor.
  - right. right. remember (Val tt) as rg eqn:E.
    destruct G as [tb B|tb B|rb tb [[]|e] B N1 N2]; try discriminate E.
    + exists (Exc (Raised KeyboardInterrupt)), tb,
        [EvLog Info shutting_down_text; EvCmd ProcWait o].
      repeat split; [exact B|constructor].
    + cbn in E. subst rb.
      exists (Val tt), tb,
        [EvCmd Shutdown (Returns tt); EvLog Info shutting_down_text; EvCmd ProcWait o].
      repeat split; [exact B|constructor|]. now rewrite <- app_assoc.
Qed.

Lemma waiting_returned_report process_name num_procs terminal_state t :
  waiting process_name num_procs terminal_state (Val tt) t ->
  exists pre, t = pre ++ all_report process_name num_procs terminal_state.
Proof.
  intros H. apply waiting_returns in H as (pre & states & -> & L & F & T).
  exists pre. unfold all_report. now rewrite <- (all_terminal_answered _ _ _ _ T L).
Qed.

Lemma waiting_raised_last process_name num_procs terminal_state e t :
  waiting process_name num_procs terminal_state (Exc (Raised e)) t ->
  exists pre ev, t = pre ++ [ev] /\ raised_by ev = Some e.
Proof.
  intros H. apply waiting_raises in H.
  destruct H as [(E & _)|[(pre & e' & -> & E)|(pre & name & e' & -> & E & _)]];
    try discriminate E; injection E as <-; now eexists _, _.
Qed.

Lemma steady_raised_last x t :
  looping steady (Exc x) t ->
  exists e pre ev, x = Raised e /\ t = pre ++ [ev] /\ raised_by ev = Some e.
Proof.
  intros H. apply looping_end in H.
  destruct H as [H|(pre & last & -> & [[H _]|(y & E & H)])]; try discriminate.
  injection E as <-. remember (Exc x) as r eqn:E.
  destruct H as [|state S|state [[]|e] S|e]; try discriminate E; injection E as <-.
  - exists e, (pre ++ [EvInfo "autoscaler" (Returns state)]), (EvCmd (Sleep 5) (Raises e)).
    repeat split. now rewrite <- app_assoc.
  - now exists e, pre, (EvInfo "autoscaler" (Raises e)).
Qed.

Lemma body_raised_last fetch_proc_count run_proc_count e tb :
  body_trace fetch_proc_count run_proc_count (Exc (Raised e)) tb ->
  exists pre ev, tb = pre ++ [ev] /\ raised_by ev = Some e.
Proof.
  intros H. remember (Exc (Raised e)) as rb eqn:E.
  destruct H as [r1 t1 W1 N|t1 e' W1|t1 r2 t2 W1 W2 N|t1 t2 e' W1 W2|t1 t2 r3 t3 W1 W2 L3];
    subst.
  - now apply waiting_raised_last in W1.
  - injection E as ->. now eexists _, _.
  - apply waiting_raised_last in W2 as (pre & ev & -> & R).
    exists (t1 ++ EvCmd (StartProcessGroup "run_signals") (Returns tt) :: pre), ev.
    split; [|exact R]. now rewrite <- app_assoc.
  - injection E as ->.
    exists (t1 ++ EvCmd (StartProcessGroup "run_signals") (Returns tt) :: t2),
           (EvCmd (StartProcess "autoscaler") (Raises e)).
    split; [|reflexivity]. now rewrite <- app_assoc.
  - apply steady_raised_last in L3 as (e' & pre & ev & E & -> & R). injection E as ->.
    exists (t1 ++ EvCmd (StartProcessGroup "run_signals") (Returns tt)
               :: t2 ++ EvCmd (StartProcess "autoscaler") (Returns tt) :: pre), ev.
    split; [|exact R]. rewrite <- app_assoc. cbn. now rewrite <- app_assoc.
Qed.

Lemma interrupt_unabsorbed ev :
  interrupt_in_body ev = true ->
  unabsorbed direct_query ev = true /\ raised_by ev = Some KeyboardInterrupt.
Proof. now destruct ev as [name [|[]]|[] [|[]]|]. Qed.

(** The [try] body ends with KeyboardInterrupt exactly when one of its calls
    raised it. *)
Lemma body_interrupted fetch_proc_count run_proc_count rb tb :
  body_trace fetch_proc_count run_proc_count rb tb ->
  interrupted tb = true <-> rb = Exc (Raised KeyboardInterrupt).
Proof.
  intros B. split.
  - intros I. apply existsb_exists in I as (ev & Hin & I).
    apply in_split in Hin as (l1 & l2 & ->).
    apply interrupt_unabsorbed in I as [U R].
    apply body_stops in B as [B _].
    destruct (B l1 ev l2 eq_refl U) as (_ & e & R' & ->). congruence.
  - intros ->. pose proof (body_events _ _ _ _ B) as Ev.
    apply body_raised_last in B as (pre & ev & -> & R).
    unfold interrupted. apply existsb_split.
    rewrite forallb_app in Ev. apply andb_prop in Ev as [_ Ev]. cbn in Ev.
    now destruct ev as [name [|[]]|[] [|[]]|].
Qed.

Lemma body_bootstrap fetch_proc_count run_proc_count msg tb :
  body_trace fetch_proc_count run_proc_count (Exc (AutoscalerBootstrapException msg)) tb ->
  msg = could_not_start "fetch_signals" \/ msg = could_not_start "run_signals".
Proof.
  intros H. remember (Exc (AutoscalerBootstrapException msg)) as rb eqn:E.
  destruct H as [r1 t1 W1 N|t1 e' W1|t1 r2 t2 W1 W2 N|t1 t2 e' W1 W2|t1 t2 r3 t3 W1 W2 L3];
    subst; try discriminate E.
  - apply waiting_raises in W1
      as [(E & _)|[(pre & e' & _ & E)|(pre & name & e' & _ & E & _)]];
      try discriminate E. injection E as ->. now left.
  - apply waiting_raises in W2
      as [(E & _)|[(pre & e' & _ & E)|(pre & name & e' & _ & E & _)]];
      try discriminate E. injection E as ->. now right.
  - apply steady_raised_last in L3 as (e' & pre & ev & E & _). discriminate E.
Qed.

Lemma polls_have_no_command c t :
  (forall secs, c <> Sleep secs) ->
  forallb is_poll_event t = true -> existsb (is_cmd c) t = false.
Proof.
  intros Hc. apply quiet_of_polls. intros [name o|c' o|lvl msg] P; try reflexivity.
  destruct c' as [|secs| | | |]; try discriminate P. destruct c; try reflexivity.
  now elim (Hc secs0).
Qed.

(** [startProcessGroup] is called when, and only when, the wait for the
    fetch group has returned. *)
Lemma body_start_group fetch_proc_count run_proc_count rb tb pre o post :
  body_trace fetch_proc_count run_proc_count rb tb ->
  tb = pre ++ EvCmd (StartProcessGroup "run_signals") o :: post ->
  waiting "fetch_signals" fetch_proc_count "EXITED" (Val tt) pre.
Proof.
  set (p := is_cmd (StartProcessGroup "run_signals")).
  assert (Q : forall pn n ts r t, waiting pn n ts r t -> existsb p t = false)
    by (intros pn n ts r t H; apply waiting_polls in H;
        now apply polls_have_no_command).
  intros [r1 t1 W1 N|t1 e W1|t1 r2 t2 W1 W2 N|t1 t2 e W1 W2|t1 t2 r3 t3 W1 W2 L3] E.
  - apply Q in W1. rewrite E in W1. now rewrite existsb_split in W1.
  - apply (unique_split p) in E as (-> & _); eauto.
  - apply (unique_split p) in E as (-> & _); eauto.
  - apply (unique_split p) in E as (-> & _); eauto.
    rewrite existsb_app, (Q _ _ _ _ _ W2). reflexivity.
  - apply (unique_split p) in E as (-> & _); eauto.
    rewrite existsb_app, (Q _ _ _ _ _ W2). cbn.
    apply steady_polls in L3. now apply polls_have_no_command.
Qed.

(** [startProcess] is called when, and only when, the wait for the run
    group has returned. *)
Lemma body_start_main fetch_proc_count run_proc_count rb tb pre o post :
  body_trace fetch_proc_count run_proc_count rb tb ->
  tb = pre ++ EvCmd (StartProcess "autoscaler") o :: post ->
  exists t1 t2,
    pre = t1 ++ EvCmd (StartProcessGroup "run_signals") (Returns tt) :: t2 /\
    waiting "fetch_signals" fetch_proc_count "EXITED" (Val tt) t1 /\
    waiting "run_signals" run_proc_count "RUNNING" (Val tt) t2.
Proof.
  set (p := is_cmd (StartProcess "autoscaler")).
  assert (Q : forall pn n ts r t, waiting pn n ts r t -> existsb p t = false)
    by (intros pn n ts r t H; apply waiting_polls in H;
        now apply polls_have_no_command).
  intros [r1 t1 W1 N|t1 e W1|t1 r2 t2 W1 W2 N|t1 t2 e W1 W2|t1 t2 r3 t3 W1 W2 L3] E.
  - apply Q in W1. rewrite E in W1. now rewrite existsb_split in W1.
  - assert (X : existsb p (t1 ++ [EvCmd (StartProcessGroup "run_signals") (Raises e)])
                = false) by (rewrite existsb_app, (Q _ _ _ _ _ W1); reflexivity).
    rewrite E in X. now rewrite existsb_split in X.
  - assert (X : existsb p (t1 ++ EvCmd (StartProcessGroup "run_signals") (Returns tt)
                              :: t2) = false)
      by (rewrite existsb_app, (Q _ _ _ _ _ W1); cbn; now rewrite (Q _ _ _ _ _ W2)).
    rewrite E in X. now rewrite existsb_split in X.
  - change (t1 ++ EvCmd (StartProcessGroup "run_signals") (Returns tt)
               :: t2 ++ [EvCmd (StartProcess "autoscaler") (Raises e)])
      with (t1 ++ (EvCmd (StartProcessGroup "run_signals") (Returns tt) :: t2) ++
            [EvCmd (StartProcess "autoscaler") (Raises e)]) in E.
    rewrite app_assoc in E. apply (unique_split p) in E as (-> & _);
      [now exists t1, t2| |reflexivity..].
    rewrite existsb_app, (Q _ _ _ _ _ W1). cbn. now rewrite (Q _ _ _ _ _ W2).
  - change (t1 ++ EvCmd (StartProcessGroup "run_signals") (Returns tt)
               :: t2 ++ EvCmd (StartProcess "autoscaler") (Returns tt) :: t3)
      with (t1 ++ (EvCmd (StartProcessGroup "run_signals") (Returns tt) :: t2) ++
            EvCmd (StartProcess "autoscaler") (Returns tt) :: t3) in E.
    rewrite app_assoc in E. apply (unique_split p) in E as (-> & _);
      [now exists t1, t2| | |reflexivity].
    + rewrite existsb_app, (Q _ _ _ _ _ W1). cbn. now rewrite (Q _ _ _ _ _ W2).
    + apply steady_polls in L3. now apply polls_have_no_command.
Qed.

Lemma quiet_of (q p : event -> bool) t :
  (forall ev, q ev = true -> p ev = false) ->
  forallb q t = true -> existsb p t = false.
Proof.
  intros Hp. induction t as [|ev t IH]; [reflexivity|]. cbn.
  intros H. apply andb_prop in H as [H1 H2]. now rewrite (Hp _ H1), IH.
Qed.

Lemma tail_events rb r tail : tail_of rb r tail -> forallb is_tail_event tail = true.
Proof. now intros [|o|o|rb' e N1 N2|x N]. Qed.

Lemma tail_not_interrupted rb r tail : tail_of rb r tail -> interrupted tail = false.
Proof.
  intros H. apply tail_events in H. revert H. apply quiet_of.
  now intros [name o|[] o|lvl msg].
Qed.

(** An event that is neither of the start-up nor of the cleanup is in the
    [try] body. *)
Lemma run_event_in_body (p : event -> bool) fetch_proc_count run_proc_count r t
    pre ev post :
  (forall o, p (EvCmd Popen o) = false) ->
  (forall secs o, p (EvCmd (Sleep secs) o) = false) ->
  (forall ev', is_tail_event ev' = true -> p ev' = false) ->
  run_trace fetch_proc_count run_proc_count r t ->
  t = pre ++ ev :: post -> p ev = true ->
  exists rb tb tail pre1 post1,
    body_trace fetch_proc_count run_proc_count rb tb /\ tail_of rb r tail /\
    tb = pre1 ++ ev :: post1 /\
    pre = EvCmd Popen (Returns tt) :: EvCmd (Sleep 1) (Returns tt) :: pre1 /\
    post = post1 ++ tail.
Proof.
  intros P1 P2 P3 H E Hev. apply run_segments in H.
  destruct H as [(e & -> & _)|[(e & -> & _)|(rb & tb & tail & B & T & ->)]].
  - assert (X : existsb p [EvCmd Popen (Raises e)] = false) by (cbn; now rewrite P1).
    rewrite E in X. now rewrite existsb_split in X.
  - assert (X : existsb p [EvCmd Popen (Returns tt); EvCmd (Sleep 1) (Raises e)] = false)
      by (cbn; now rewrite P1, P2).
    rewrite E in X. now rewrite existsb_split in X.
  - change (EvCmd Popen (Returns tt) :: EvCmd (Sleep 1) (Returns tt) :: tb ++ tail)
      with ([EvCmd Popen (Returns tt); EvCmd (Sleep 1) (Returns tt)] ++ tb ++ tail) in E.
    apply (middle_split p) in E as (pre1 & post1 & -> & -> & ->);
      [|cbn; now rewrite P1, P2| |exact Hev].
    + now exists rb, (pre1 ++ ev :: post1), tail, pre1, post1.
    + apply tail_events in T. revert T. now apply quiet_of.
Qed.

Lemma calls_run c tb tail :
  c = Shutdown \/ c = ProcWait ->
  calls c (EvCmd Popen (Returns tt) :: EvCmd (Sleep 1) (Returns tt) :: tb ++ tail)
  = calls c tb + calls c tail.
Proof. intros [-> | ->]; unfold calls; cbn; now rewrite filter_app, length_app. Qed.

(** ** The controller: claims *)

Section Controller.

Variable World : Type.
Variable getProcessInfo : World -> string -> reply string * World.
Variable perform : World -> command -> reply unit * World.
Variable running : World -> bool.

(** C4.  In every run, whatever its length, the start command of the run
    group is recorded right after a poll in which every fetch instance reports
    EXITED (the poll that ends the fetch wait), and the start command of the
    main process right after a poll in which every run instance reports
    RUNNING, itself after the start command of the run group has returned. *)
Theorem start_commands_follow_stage_waits fuel fetch_proc_count run_proc_count
    w r w' t :
  run getProcessInfo perform running fuel fetch_proc_count run_proc_count w
    = (r, w', t) ->
  (forall pre o post,
      t = pre ++ EvCmd (StartProcessGroup "run_signals") o :: post ->
      exists pre', pre = pre' ++ all_report "fetch_signals" fetch_proc_count "EXITED") /\
  (forall pre o post,
      t = pre ++ EvCmd (StartProcess "autoscaler") o :: post ->
      exists pre' mid,
        pre = pre' ++ all_report "fetch_signals" fetch_proc_count "EXITED" ++
              EvCmd (StartProcessGroup "run_signals") (Returns tt) ::
              mid ++ all_report "run_signals" run_proc_count "RUNNING").
Proof.
  intros H. apply run_shape in H. split; intros pre o post E.
  - assert (P3 : forall ev', is_tail_event ev' = true ->
                is_cmd (StartProcessGroup "run_signals") ev' = false)
      by now intros [name o'|[] o'|lvl msg].
    destruct (run_event_in_body _ _ _ _ _ _ _ _
                (fun _ => eq_refl) (fun _ _ => eq_refl) P3 H E eq_refl)
      as (rb & tb & tail & pre1 & post1 & B & _ & E' & -> & _).
    clear E. rename E' into E.
    apply (body_start_group _ _ _ _ _ _ _ B), waiting_returned_report in E
      as (pre' & ->).
    now exists (EvCmd Popen (Returns tt) :: EvCmd (Sleep 1) (Returns tt) :: pre').
  - assert (P3 : forall ev', is_tail_event ev' = true ->
                is_cmd (StartProcess "autoscaler") ev' = false)
      by now intros [name o'|[] o'|lvl msg].
    destruct (run_event_in_body _ _ _ _ _ _ _ _
                (fun _ => eq_refl) (fun _ _ => eq_refl) P3 H E eq_refl)
      as (rb & tb & tail & pre1 & post1 & B & _ & E' & -> & _).
    clear E. rename E' into E.
    apply (body_start_main _ _ _ _ _ _ _ B) in E as (t1 & t2 & -> & W1 & W2).
    apply waiting_returned_report in W1 as (pre' & ->).
    apply waiting_returned_report in W2 as (mid & ->).
    exists (EvCmd Popen (Returns tt) :: EvCmd (Sleep 1) (Returns tt) :: pre'), mid.
    cbn. now rewrite <- app_assoc.
Qed.

(** C2.  [shutdown()] is called at most once in a run.  When the run ends
    after its start-up, it is not called if a call of the [try] body was cut
    by KeyboardInterrupt, and called exactly once otherwise, after every
    call of the body. *)
Theorem shutdown_once_unless_interrupted fuel fetch_proc_count run_proc_count
    w r w' t :
  run getProcessInfo perform running fuel fetch_proc_count run_proc_count w
    = (r, w', t) ->
  calls Shutdown t <= 1 /\
  (terminated r = true ->
   forall tg,
     t = EvCmd Popen (Returns tt) :: EvCmd (Sleep 1) (Returns tt) :: tg ->
     (interrupted tg = true -> calls Shutdown t = 0) /\
     (interrupted tg = false ->
      calls Shutdown t = 1 /\
      exists tb o tail,
        tg = tb ++ EvCmd Shutdown o :: tail /\
        forallb is_body_event tb = true /\ forallb is_tail_event tail = true /\
        calls Shutdown tail = 0)).
Proof.
  intros H. apply run_shape, run_segments in H.
  destruct H as [(e & -> & _)|[(e & -> & _)|(rb & tb & tail & B & T & ->)]].
  - split; [cbn; lia|]. intros _ tg E. discriminate E.
  - split; [cbn; lia|]. intros _ tg E. discriminate E.
  - rewrite calls_run by now left.
    destruct (body_calls _ _ _ _ B) as [-> _].
    pose proof (body_interrupted _ _ _ _ B) as I.
    pose proof (body_events _ _ _ _ B) as Ev.
    pose proof (tail_not_interrupted _ _ _ T) as NI.
    split; [destruct T; cbn; lia|].
    intros Tm tg E. injection E as <-. unfold interrupted in *.
    rewrite existsb_app, NI, orb_false_r.
    destruct T as [|o|o|rb e N1 N2|x N]; try discriminate Tm.
    + split; [reflexivity|]. intros X. destruct I as [_ I]. now rewrite I in X.
    + split; [intros X; apply I in X; discriminate X|]. intros _.
      split; [reflexivity|]. now eexists tb, _, _.
    + split; [intros X; apply I in X; now elim N2|]. intros _.
      split; [reflexivity|]. now eexists tb, _, _.
    + split; [intros X; apply I in X; injection X as ->; now elim N|]. intros _.
      split; [reflexivity|]. now eexists tb, _, _.
Qed.

(** C1, as the code has it.  [supervisord_proc.wait()] is called at most
    once in a run, and a run that returns has called it exactly once, as its
    last call: so it is on the normal exit of the steady-state loop and on
    KeyboardInterrupt, where it is called without [shutdown()] before it.
    When the fatal-state error of a stage wait leaves the [try], [shutdown()]
    is called once, the error reaches the caller, and the wait is not
    called. *)
Theorem daemon_awaited_when_run_returns fuel fetch_proc_count run_proc_count
    w r w' t :
  run getProcessInfo perform running fuel fetch_proc_count run_proc_count w
    = (r, w', t) ->
  calls ProcWait t <= 1 /\
  (r = Val tt ->
   calls ProcWait t = 1 /\ exists t0, t = t0 ++ [EvCmd ProcWait (Returns tt)]) /\
  (forall tg,
     t = EvCmd Popen (Returns tt) :: EvCmd (Sleep 1) (Returns tt) :: tg ->
     interrupted tg = true ->
     calls ProcWait t = 1 /\ calls Shutdown t = 0 /\
     exists t0 o, t = t0 ++ [EvCmd ProcWait o]) /\
  (forall msg,
     r = Exc (AutoscalerBootstrapException msg) ->
     calls ProcWait t = 0 /\ calls Shutdown t = 1 /\
     (msg = could_not_start "fetch_signals" \/ msg = could_not_start "run_signals") /\
     exists t0, t = t0 ++ [EvCmd Shutdown (Returns tt)]).
Proof.
  intros H. apply run_shape, run_segments in H.
  destruct H as [(e & -> & ->)|[(e & -> & ->)|(rb & tb & tail & B & T & ->)]].
  - repeat split; try (cbn; lia); try discriminate.
  - repeat split; try (cbn; lia); try discriminate.
  - rewrite !calls_run by auto.
    destruct (body_calls _ _ _ _ B) as [-> ->].
    pose proof (body_interrupted _ _ _ _ B) as I.
    pose proof (tail_not_interrupted _ _ _ T) as NI.
    set (hd := [EvCmd Popen (Returns tt); EvCmd (Sleep 1) (Returns tt)]).
    change (EvCmd Popen (Returns tt) :: EvCmd (Sleep 1) (Returns tt) :: tb ++ tail)
      with (hd ++ tb ++ tail).
    split; [destruct T; cbn; lia|]. split; [|split].
    + intros E. destruct T as [|[[]|e]|[[]|e]|rb e N1 N2|x N]; try discriminate E.
      * split; [reflexivity|].
        exists (hd ++ tb ++ [EvLog Info shutting_down_text]).
        now rewrite <- !app_assoc.
      * split; [reflexivity|].
        exists (hd ++ tb ++ [EvCmd Shutdown (Returns tt); EvLog Info shutting_down_text]).
        now rewrite <- !app_assoc.
    + intros tg E X. injection E as <-. unfold interrupted in *.
      rewrite existsb_app, NI, orb_false_r in X. apply I in X. subst rb.
      remember (Exc (Raised KeyboardInterrupt)) as rb eqn:E.
      destruct T as [|o|o|rb e N1 N2|x N]; try discriminate E.
      * repeat split; try reflexivity.
        exists (hd ++ tb ++ [EvLog Info shutting_down_text]), o.
        now rewrite <- !app_assoc.
      * now elim N2.
      * injection E as ->. now elim N.
    + intros msg E.
      destruct T as [|[[]|e]|[[]|e]|rb e N1 N2|x N]; try discriminate E.
      injection E as ->. repeat split; try reflexivity.
      * eapply body_bootstrap, B.
      * exists (hd ++ tb). now rewrite <- app_assoc.
Qed.

Lemma direct_call_unabsorbed ev e :
  direct_call ev = true -> raised_by ev = Some e ->
  unabsorbed direct_query ev = true.
Proof.
  destruct ev as [name [state|e']|c [[]|e']|lvl msg]; try discriminate; cbn.
  - intros D _. now destruct e'.
  - reflexivity.
Qed.

(** C7, as the code has it.  An OSError of a status query made by a stage
    wait is followed by the warning and the one-second sleep.  An exception
    other than KeyboardInterrupt raised by a call the [try] body of [run]
    makes itself (the start commands, the status query of the steady-state
    loop), OSError included, ends the body: [shutdown()] is the one call
    left, and the exception, or the one [shutdown()] raises, is the outcome
    of [run].  So is the exception of a failing [shutdown()]. *)
Theorem connectivity_errors_of_run_propagate fuel fetch_proc_count run_proc_count
    w r w' t :
  run getProcessInfo perform running fuel fetch_proc_count run_proc_count w
    = (r, w', t) ->
  (forall pre name post,
      t = pre ++ EvInfo name (Raises OSError) :: post ->
      name <> "autoscaler" ->
      exists o post',
        post = EvLog Warning warning_text :: EvCmd (Sleep 1) o :: post') /\
  (forall pre ev post e,
      t = pre ++ ev :: post ->
      direct_call ev = true -> raised_by ev = Some e -> e <> KeyboardInterrupt ->
      exists o, post = [EvCmd Shutdown o] /\ r = finally_result (Exc (Raised e)) o) /\
  (forall pre e post,
      t = pre ++ EvCmd Shutdown (Raises e) :: post ->
      post = [] /\ r = Exc (Raised e)).
Proof.
  intros H. apply run_shape in H. split; [|split].
  - intros pre name post E Nn.
    assert (P3 : forall ev', is_tail_event ev' = true -> absorbed_failure ev' = false)
      by now intros [name' o'|[] o'|lvl msg].
    assert (Hev : absorbed_failure (EvInfo name (Raises OSError)) = true)
      by (cbn; apply negb_true_iff; now apply String.eqb_neq).
    destruct (run_event_in_body _ _ _ _ _ _ _ _
                (fun _ => eq_refl) (fun _ _ => eq_refl) P3 H E Hev)
      as (rb & tb & tail & pre1 & post1 & B & _ & E' & _ & ->).
    apply body_backoff in B. apply backoff_app. eapply B; [exact E'|exact Hev].
  - intros pre ev post e E D R Ne.
    assert (P1 : forall o, direct_call (EvCmd Popen o) = false) by reflexivity.
    assert (P2 : forall secs o, direct_call (EvCmd (Sleep secs) o) = false)
      by reflexivity.
    assert (P3 : forall ev', is_tail_event ev' = true -> direct_call ev' = false)
      by now intros [name' o'|[] o'|lvl msg].
    destruct (run_event_in_body _ _ _ _ _ _ _ _ P1 P2 P3 H E D)
      as (rb & tb & tail & pre1 & post1 & B & T & E' & _ & ->).
    apply body_stops in B as [B _].
    destruct (B _ _ _ E' (direct_call_unabsorbed _ _ D R)) as (-> & e' & R' & ->).
    assert (e' = e) as -> by congruence. cbn [app].
    remember (Exc (Raised e)) as rb eqn:Erb.
    destruct T as [|o|o|rb e2 N1 N2|x N]; try discriminate Erb.
    + injection Erb as <-. now elim Ne.
    + now exists (Raises e2).
    + exists (Returns tt). now rewrite Erb.
  - intros pre e post E. apply run_segments in H.
    destruct H as [(e0 & -> & _)|[(e0 & -> & _)|(rb & tb & tail & B & T & ->)]].
    + destruct pre as [|? [|? ?]]; discriminate E.
    + destruct pre as [|? [|? [|? ?]]]; discriminate E.
    + change (EvCmd Popen (Returns tt) :: EvCmd (Sleep 1) (Returns tt) :: tb ++ tail)
        with ([EvCmd Popen (Returns tt); EvCmd (Sleep 1) (Returns tt)] ++ tb ++ tail) in E.
      rewrite app_assoc in E. apply app_split_at in E.
      destruct E as [(post1 & E & _)|(pre2 & _ & E)].
      * apply body_events in B.
        assert (X : existsb (is_cmd Shutdown)
                  ([EvCmd Popen (Returns tt); EvCmd (Sleep 1) (Returns tt)] ++ tb) = false).
        { rewrite existsb_app. cbn. revert B. apply quiet_of.
          now intros [name' o'|[] o'|lvl msg]. }
        rewrite E in X. now rewrite existsb_split in X.
      * destruct T as [|o|o|rb e2 N1 N2|x N];
          repeat (destruct pre2 as [|? pre2]; try discriminate E).
        injection E as -> ->. now split.
Qed.

End Controller.

(** ** More fuel changes nothing *)

Lemma stable_const {World A} (m : M World A) : stable (fun _ => m).
Proof. now intros fuel w r w' t H _ fuel' _. Qed.

Lemma stable_bind {World A B} (f : nat -> M World A) (g : A -> nat -> M World B) :
  stable f -> (forall a, stable (g a)) ->
  stable (fun fuel => bind (f fuel) (fun a => g a fuel)).
Proof.
  intros Hf Hg fuel w r w' t H T fuel' L. cbv beta in *. unfold bind in *.
  destruct (f fuel w) as [[[a|x|] w1] t1] eqn:E.
  - rewrite (Hf _ _ _ _ _ E eq_refl _ L).
    destruct (g a fuel w1) as [[r2 w2] t2] eqn:E2. injection H as <- <- <-.
    now rewrite (Hg a _ _ _ _ _ E2 T _ L).
  - now rewrite (Hf _ _ _ _ _ E eq_refl _ L).
  - injection H as <- <- <-. discriminate T.
Qed.

Lemma stable_while {World} (body : M World ctl) :
  stable (fun fuel => while_true fuel body).
Proof.
  intros fuel. induction fuel as [|fuel IH]; intros w r w' t H T fuel' L.
  - injection H as <- <- <-. discriminate T.
  - destruct fuel' as [|fuel']; [lia|]. rewrite while_true_S in *.
    destruct (body w) as [[[[]|x|] w1] t1]; try exact H.
    destruct (while_true fuel body w1) as [[r2 w2] t2] eqn:E.
    cbn in H. injection H as <- <- <-.
    now rewrite (IH _ _ _ _ E T fuel') by lia.
Qed.

Lemma stable_try_except {World A} (f : nat -> M World A) handles h :
  stable f -> stable (fun fuel => try_except (f fuel) handles h).
Proof.
  intros Hf fuel w r w' t H T fuel' L. cbv beta in *. unfold try_except in *.
  destruct (f fuel w) as [[[a|x|] w1] t1] eqn:E.
  - now rewrite (Hf _ _ _ _ _ E eq_refl _ L).
  - now rewrite (Hf _ _ _ _ _ E eq_refl _ L).
  - injection H as <- <- <-. discriminate T.
Qed.

Section Fuel.

Variable World : Type.
Variable getProcessInfo : World -> string -> reply string * World.
Variable perform : World -> command -> reply unit * World.
Variable running : World -> bool.

Lemma wait_for_process_stable process_name num_procs terminal_state :
  stable (fun fuel =>
    wait_for_process getProcessInfo perform fuel process_name num_procs terminal_state).
Proof.
  unfold wait_for_process.
  apply (stable_bind (fun _ => log Info _) (fun _ fuel => while_true fuel _)).
  - apply stable_const.
  - intros _. apply stable_while.
Qed.

Lemma run_body_stable fetch_proc_count run_proc_count :
  stable (fun fuel =>
    run_body getProcessInfo perform running fuel fetch_proc_count run_proc_count).
Proof.
  unfold run_body.
  apply (stable_bind (fun fuel => wait_for_process _ _ fuel _ _ _)
           (fun _ fuel => bind _ _)); [apply wait_for_process_stable|intros _].
  apply (stable_bind (fun _ => do _ _) (fun _ fuel => bind _ _));
    [apply stable_const|intros _].
  apply (stable_bind (fun fuel => wait_for_process _ _ fuel _ _ _)
           (fun _ fuel => bind _ _)); [apply wait_for_process_stable|intros _].
  apply (stable_bind (fun _ => do _ _) (fun _ fuel => while_true fuel _));
    [apply stable_const|intros _]. apply stable_while.
Qed.

(** A run that ends within some bound on its loops ends the same way
    within any larger one. *)
Lemma run_stable fetch_proc_count run_proc_count :
  stable (fun fuel =>
    run getProcessInfo perform running fuel fetch_proc_count run_proc_count).
Proof.
  assert (G : stable (fun fuel =>
    run_guarded getProcessInfo perform running fuel fetch_proc_count run_proc_count)).
  { intros fuel w r w' t H T fuel' L. unfold run_guarded in *.
    pose proof (stable_try_except
      (fun fuel => bind (run_body getProcessInfo perform running fuel
                           fetch_proc_count run_proc_count)
                        (fun _ => ret false))
      is_KeyboardInterrupt (ret true)
      (stable_bind _ (fun _ _ => ret false)
         (run_body_stable fetch_proc_count run_proc_count)
         (fun _ => stable_const _))) as S.
    cbv beta in S.
    destruct (try_except _ _ _ w) as [[[skip|x|] w1] t1] eqn:E.
    - now rewrite (S _ _ _ _ _ E eq_refl _ L).
    - now rewrite (S _ _ _ _ _ E eq_refl _ L).
    - injection H as <- <- <-. discriminate T. }
  unfold run.
  apply (stable_bind (fun _ => do _ _) (fun _ fuel => bind _ _));
    [apply stable_const|intros _].
  apply (stable_bind (fun _ => do _ _) (fun _ fuel => bind _ _));
    [apply stable_const|intros _].
  apply (stable_bind (fun fuel => run_guarded _ _ _ fuel _ _) (fun _ _ => bind _ _));
    [exact G|intros _]. apply stable_const.
Qed.

End Fuel.

(** ** The claims on scripted runs *)

(** C1, as stated, fails: the fetch instance reports FATAL, [run] calls
    [shutdown()] and ends with the bootstrap exception; [wait()] is never
    called. *)
Lemma fatal_error_skips_daemon_wait :
  Fake.run 1 1 1 Fake.fetch_fatal
  = (Exc (AutoscalerBootstrapException "Process fetch_signals could not start; aborting"),
     Fake.scripted [] (Returns "RUNNING"),
     [EvCmd Popen (Returns tt); EvCmd (Sleep 1) (Returns tt);
      EvLog Info "waiting for fetch_signals to start";
      EvInfo "fetch_signals:fetch_signals_0" (Returns "FATAL");
      EvCmd Shutdown (Returns tt)]) /\
  calls ProcWait (snd (Fake.run 1 1 1 Fake.fetch_fatal)) = 0.
Proof. split; reflexivity. Qed.

(** C1 on the normal exit: the autoscaler leaves its running states, [run]
    returns, and [wait()] was its last call, made once. *)
Lemma daemon_awaited_when_run_returns_witness :
  calls ProcWait (snd (Fake.run 2 1 1 Fake.healthy)) = 1 /\
  exists t0, snd (Fake.run 2 1 1 Fake.healthy) = t0 ++ [EvCmd ProcWait (Returns tt)].
Proof.
  exact (proj1 (proj2
    (daemon_awaited_when_run_returns Fake.world Fake.getProcessInfo Fake.perform
       Fake.running 2 1 1 Fake.healthy _ _ _ eq_refl)) eq_refl).
Defined.

(** C2 on an interrupted run: no [shutdown()]. *)
Lemma shutdown_once_unless_interrupted_witness :
  calls Shutdown (snd (Fake.run 2 1 1 Fake.interrupted_run)) = 0.
Proof.
  exact (proj1 (proj2
    (shutdown_once_unless_interrupted Fake.world Fake.getProcessInfo Fake.perform
       Fake.running 2 1 1 Fake.interrupted_run _ _ _ eq_refl) eq_refl _ eq_refl)
    eq_refl).
Defined.

(** C3, as stated, fails: instance 0 reports FATAL in a poll that the query
    of instance 1 cuts with OSError; [wait_for_process] sleeps, polls again
    and returns. *)
Lemma fatal_report_lost_with_poll :
  Fake.wait_for_process 2 "run_signals" 2 "RUNNING" Fake.lost_fatal
  = (Val tt, Fake.scripted [] (Returns "RUNNING"),
     [EvLog Info "waiting for run_signals to start";
      EvInfo "run_signals:run_signals_0" (Returns "FATAL");
      EvInfo "run_signals:run_signals_1" (Raises OSError);
      EvLog Warning "Could not talk to supervisord process";
      EvCmd (Sleep 1) (Returns tt);
      EvInfo "run_signals:run_signals_0" (Returns "RUNNING");
      EvInfo "run_signals:run_signals_1" (Returns "RUNNING")]).
Proof. reflexivity. Qed.

(** C3 on two run instances, the first FATAL and the second STARTING: the
    wait ends with the poll. *)
Lemma fatal_poll_aborts_wait_witness :
  Fake.wait_for_process 1 "run_signals" 2 "RUNNING"
    (Fake.scripted [Returns "FATAL"; Returns "STARTING"] (Returns "RUNNING"))
  = (Exc (AutoscalerBootstrapException "Process run_signals could not start; aborting"),
     Fake.scripted [] (Returns "RUNNING"),
     [EvLog Info "waiting for run_signals to start";
      EvInfo "run_signals:run_signals_0" (Returns "FATAL");
      EvInfo "run_signals:run_signals_1" (Returns "STARTING")]).
Proof.
  exact (proj1 (proj1
    (fatal_poll_aborts_wait Fake.world Fake.getProcessInfo Fake.perform
       "run_signals" 2 "RUNNING")
    0 (Fake.scripted [Returns "FATAL"; Returns "STARTING"] (Returns "RUNNING"))
    _ ["FATAL"; "STARTING"] _ eq_refl eq_refl)).
Defined.

(** C4 on the healthy run: what precedes the start of the run group ends
    with the fetch instance reporting EXITED. *)
Lemma start_commands_follow_stage_waits_witness :
  exists pre',
    [EvCmd Popen (Returns tt); EvCmd (Sleep 1) (Returns tt);
     EvLog Info "waiting for fetch_signals to start";
     EvInfo "fetch_signals:fetch_signals_0" (Returns "EXITED")]
    = pre' ++ all_report "fetch_signals" 1 "EXITED".
Proof.
  exact (proj1
    (start_commands_follow_stage_waits Fake.world Fake.getProcessInfo Fake.perform
       Fake.running 2 1 1 Fake.healthy _ _ _ eq_refl)
    [EvCmd Popen (Returns tt); EvCmd (Sleep 1) (Returns tt);
     EvLog Info "waiting for fetch_signals to start";
     EvInfo "fetch_signals:fetch_signals_0" (Returns "EXITED")]
    (Returns tt) _ eq_refl).
Defined.

Lemma EXITED_is_not_FATAL : "EXITED" <> "FATAL".
Proof. discriminate. Defined.

Lemma RUNNING_is_not_FATAL : "RUNNING" <> "FATAL".
Proof. discriminate. Defined.

(** C5 on two fetch instances, both EXITED at the first poll: the wait
    returns with nothing recorded after the poll. *)
Lemma wait_returns_on_terminal_poll_witness :
  Fake.wait_for_process 1 "fetch_signals" 2 "EXITED"
    (Fake.scripted [Returns "EXITED"; Returns "EXITED"] (Returns "RUNNING"))
  = (Val tt, Fake.scripted [] (Returns "RUNNING"),
     [EvLog Info "waiting for fetch_signals to start";
      EvInfo "fetch_signals:fetch_signals_0" (Returns "EXITED");
      EvInfo "fetch_signals:fetch_signals_1" (Returns "EXITED")]).
Proof.
  exact (proj1 (proj2 (proj1 (proj2
    (wait_returns_on_terminal_poll Fake.world Fake.getProcessInfo Fake.perform
       "fetch_signals" 2 "EXITED" EXITED_is_not_FATAL))
    0 (Fake.scripted [Returns "EXITED"; Returns "EXITED"] (Returns "RUNNING"))
    _ ["EXITED"; "EXITED"] _ eq_refl eq_refl))).
Defined.

(** C6 on two polls cut by OSError, then a healthy one: the wait returns. *)
Lemma connectivity_failures_are_retried_witness :
  Fake.wait_for_process 3 "run_signals" 2 "RUNNING"
    (Fake.scripted
       [Raises OSError; Returns "STARTING"; Raises OSError;
        Returns "RUNNING"; Returns "RUNNING"] (Returns "RUNNING"))
  = (Val tt, Fake.scripted [] (Returns "RUNNING"),
     [EvLog Info "waiting for run_signals to start";
      EvInfo "run_signals:run_signals_0" (Raises OSError);
      EvLog Warning "Could not talk to supervisord process";
      EvCmd (Sleep 1) (Returns tt);
      EvInfo "run_signals:run_signals_0" (Returns "STARTING");
      EvInfo "run_signals:run_signals_1" (Raises OSError);
      EvLog Warning "Could not talk to supervisord process";
      EvCmd (Sleep 1) (Returns tt);
      EvInfo "run_signals:run_signals_0" (Returns "RUNNING");
      EvInfo "run_signals:run_signals_1" (Returns "RUNNING")]).
Proof.
  exact (proj2 (proj2 (proj2
    (connectivity_failures_are_retried Fake.world Fake.getProcessInfo Fake.perform
       "run_signals" 2 "RUNNING" RUNNING_is_not_FATAL)))
    [[]; ["STARTING"]] (Returns "RUNNING") 0 eq_refl).
Defined.

(** C7, as stated, fails: the status query of the steady-state loop raises
    OSError, and OSError is what [run] ends with. *)
Lemma steady_state_oserror_reaches_caller :
  Fake.run 2 1 1 Fake.autoscaler_unreachable
  = (Exc (Raised OSError), Fake.scripted [] (Returns "RUNNING"),
     [EvCmd Popen (Returns tt); EvCmd (Sleep 1) (Returns tt);
      EvLog Info "waiting for fetch_signals to start";
      EvInfo "fetch_signals:fetch_signals_0" (Returns "EXITED");
      EvCmd (StartProcessGroup "run_signals") (Returns tt);
      EvLog Info "waiting for run_signals to start";
      EvInfo "run_signals:run_signals_0" (Returns "RUNNING");
      EvCmd (StartProcess "autoscaler") (Returns tt);
      EvInfo "autoscaler" (Raises OSError);
      EvCmd Shutdown (Returns tt)]).
Proof. reflexivity. Qed.

Lemma OSError_is_not_KeyboardInterrupt : OSError <> KeyboardInterrupt.
Proof. discriminate. Defined.

(** C7 on that run: after the failing query, [shutdown()] and the end. *)
Lemma connectivity_errors_of_run_propagate_witness :
  exists o,
    [EvCmd Shutdown (Returns tt)] = [EvCmd Shutdown o] /\
    fst (fst (Fake.run 2 1 1 Fake.autoscaler_unreachable))
    = finally_result (Exc (Raised OSError)) o.
Proof.
  exact (proj1 (proj2
    (connectivity_errors_of_run_propagate Fake.world Fake.getProcessInfo Fake.perform
       Fake.running 2 1 1 Fake.autoscaler_unreachable _ _ _ eq_refl))
    [EvCmd Popen (Returns tt); EvCmd (Sleep 1) (Returns tt);
     EvLog Info "waiting for fetch_signals to start";
     EvInfo "fetch_signals:fetch_signals_0" (Returns "EXITED");
     EvCmd (StartProcessGroup "run_signals") (Returns tt);
     EvLog Info "waiting for run_signals to start";
     EvInfo "run_signals:run_signals_0" (Returns "RUNNING");
     EvCmd (StartProcess "autoscaler") (Returns tt)]
    (EvInfo "autoscaler" (Raises OSError)) [EvCmd Shutdown (Returns tt)] OSError
    eq_refl eq_refl eq_refl OSError_is_not_KeyboardInterrupt).
Defined.

(** C8 on two run instances: the second query of the poll is named
    [run_signals:run_signals_1]. *)
Lemma status_queries_follow_naming_witness :
  exists i, (0 <= Z.of_nat i < 2)%Z /\
            "run_signals:run_signals_1" = instance_name "run_signals" i.
Proof.
  exact (proj1
    (status_queries_follow_naming Fake.world Fake.getProcessInfo Fake.perform
       "run_signals" 2 "RUNNING")
    1 (Fake.scripted [] (Returns "RUNNING")) _ _ _ eq_refl
    "run_signals:run_signals_1" (or_intror (or_introl eq_refl))).
Defined.

Lemma RpcFault_is_not_OSError : RpcFault <> OSError.
Proof. discriminate. Defined.

(** C10 on a query answered by an RPC fault: the wait ends there, with the
    fault. *)
Lemma only_oserror_is_absorbed_witness :
  @nil event = [] /\
  fst (fst (Fake.wait_for_process 3 "fetch_signals" 1 "EXITED"
              (Fake.scripted [Raises RpcFault] (Returns "EXITED"))))
  = Exc (Raised RpcFault).
Proof.
  exact (proj1
    (only_oserror_is_absorbed Fake.world Fake.getProcessInfo Fake.perform
       "fetch_signals" 1 "EXITED" 3
       (Fake.scripted [Raises RpcFault] (Returns "EXITED")) _ _ _
       [EvLog Info "waiting for fetch_signals to start"]
       "fetch_signals:fetch_signals_0" RpcFault [] eq_refl eq_refl)
    RpcFault_is_not_OSError).
Defined.

(** ** More on the stage waiter *)

Section StageWaiterMore.

Variable World : Type.
Variable getProcessInfo : World -> string -> reply string * World.
Variable perform : World -> command -> reply unit * World.

Lemma iteration_wait_events process_name num_procs terminal_state r t :
  iteration process_name num_procs terminal_state r t ->
  forallb is_wait_event t = true.
Proof.
  intros [states L F|states L F T|states o L F T|states o L|states e L Ne];
    rewrite ?forallb_app, answered_forallb; reflexivity.
Qed.

(** X1.  [wait_for_process] only observes: all it records is status
    queries, log lines and [time.sleep(1)]; the one command it ever issues is
    that sleep, and it starts and stops nothing. *)
Theorem wait_for_process_only_sleeps fuel process_name num_procs terminal_state
    w r w' t :
  wait_for_process getProcessInfo perform fuel process_name num_procs terminal_state w
    = (r, w', t) ->
  forallb is_wait_event t = true /\
  (forall c o, In (EvCmd c o) t -> c = Sleep 1).
Proof.
  intros H. apply wait_for_process_waiting in H as (t' & -> & H).
  apply (looping_forallb _ is_wait_event) in H;
    [|intros r0 t0; apply iteration_wait_events].
  split; [exact H|]. intros c o Hin.
  destruct Hin as [E|Hin]; [discriminate E|].
  rewrite forallb_forall in H. specialize (H _ Hin).
  destruct c as [|secs| | | |]; try discriminate H.
  cbn in H. apply Z.eqb_eq in H. now subst.
Qed.

(** X2.  A count of instances that is zero or negative makes [range] empty:
    the wait returns in its first iteration, with no status query and no
    sleep. *)
Theorem wait_for_process_no_instances fuel process_name num_procs terminal_state w :
  (num_procs <= 0)%Z ->
  wait_for_process getProcessInfo perform (S fuel) process_name num_procs
    terminal_state w
  = (Val tt, w, [EvLog Info (waiting_text process_name)]).
Proof.
  intros H. assert (E : range num_procs = [])
    by (unfold range; now replace (Z.to_nat num_procs) with 0 by lia).
  rewrite wait_for_process_eq, while_true_S, wait_iteration_eq, E. reflexivity.
Qed.

(** X3.  FATAL cannot be waited for: the test for a FATAL instance comes
    first, so with [terminal_state = "FATAL"] and at least one instance the
    wait never returns; it ends with an exception, if it ends. *)
Theorem fatal_is_no_terminal_state fuel process_name num_procs w r w' t :
  (0 < num_procs)%Z ->
  wait_for_process getProcessInfo perform fuel process_name num_procs "FATAL" w
    = (r, w', t) ->
  r = OutOfFuel \/ exists x, r = Exc x.
Proof.
  intros P H. destruct r as [[]|x|]; [exfalso|right; now exists x|now left].
  apply wait_for_process_waiting, waiting_returns in H
    as (pre & states & _ & L & F & T).
  unfold range in L. rewrite length_seq in L.
  destruct states as [|state states]; [cbn in L; lia|].
  cbn in F, T. apply andb_prop in T as [T _]. now rewrite T in F.
Qed.









End StageWaiterMore.

(** ** More on the controller *)

Lemma calls_polls c t :
  (forall secs, c <> Sleep secs) ->
  forallb is_poll_event t = true -> calls c t = 0.
Proof.
  intros Hc H. apply calls_none. intros ev Hin.
  pose proof (polls_have_no_command c t Hc H) as Q.
  destruct (is_cmd c ev) eqn:E; [|reflexivity].
  apply in_split in Hin as (l1 & l2 & ->). now rewrite existsb_split in Q.
Qed.

Lemma calls_cons c ev t :
  calls c (ev :: t) = (if is_cmd c ev then 1 else 0) + calls c t.
Proof. unfold calls. cbn. now destruct (is_cmd c ev). Qed.

Lemma polls_only_sleep t c o :
  forallb is_poll_event t = true -> In (EvCmd c o) t -> exists secs, c = Sleep secs.
Proof.
  intros H Hin. rewrite forallb_forall in H. specialize (H _ Hin).
  destruct c; try discriminate H. now eexists.
Qed.

(** The start commands of the [try] body: the run group at most once, then
    the main process at most once. *)
Lemma body_start_counts fetch_proc_count run_proc_count rb tb :
  body_trace fetch_proc_count run_proc_count rb tb ->
  calls (StartProcessGroup "run_signals") tb <= 1 /\
  calls (StartProcess "autoscaler") tb <= 1.
Proof.
  assert (G : forall c t, (forall secs, c <> Sleep secs) ->
    forallb is_poll_event t = true -> calls c t = 0) by apply calls_polls.
  intros [r1 t1 W1 N|t1 e W1|t1 r2 t2 W1 W2 N|t1 t2 e W1 W2|t1 t2 r3 t3 W1 W2 L3];
    apply waiting_polls in W1; try apply waiting_polls in W2;
    try apply steady_polls in L3;
    repeat (rewrite ?calls_app, ?calls_cons);
    rewrite ?(G (StartProcessGroup "run_signals") t1),
            ?(G (StartProcess "autoscaler") t1),
            ?(G (StartProcessGroup "run_signals") t2),
            ?(G (StartProcess "autoscaler") t2),
            ?(G (StartProcessGroup "run_signals") t3),
            ?(G (StartProcess "autoscaler") t3) by (assumption || discriminate);
    cbn; lia.
Qed.

(** The [try] body starts nothing but the run group and the main process. *)
Lemma body_start_names fetch_proc_count run_proc_count rb tb :
  body_trace fetch_proc_count run_proc_count rb tb ->
  (forall name o, In (EvCmd (StartProcessGroup name) o) tb -> name = "run_signals") /\
  (forall name o, In (EvCmd (StartProcess name) o) tb -> name = "autoscaler").
Proof.
  intros [r1 t1 W1 N|t1 e W1|t1 r2 t2 W1 W2 N|t1 t2 e W1 W2|t1 t2 r3 t3 W1 W2 L3];
    apply waiting_polls in W1; try apply waiting_polls in W2;
    try apply steady_polls in L3;
    split; intros name o Hin;
    repeat (apply in_app_or in Hin as [Hin|Hin] || destruct Hin as [Hin|Hin]);
    try (injection Hin as <- _; reflexivity); try discriminate Hin;
    try (apply (polls_only_sleep _ _ _ W1) in Hin as [secs Hin]; discriminate Hin);
    try (apply (polls_only_sleep _ _ _ W2) in Hin as [secs Hin]; discriminate Hin);
    try (apply (polls_only_sleep _ _ _ L3) in Hin as [secs Hin]; discriminate Hin);
    try contradiction.
Qed.

Lemma tail_has_no_start rb r tail :
  tail_of rb r tail ->
  forall ev, In ev tail ->
    forall name o, ev <> EvCmd (StartProcessGroup name) o /\
                   ev <> EvCmd (StartProcess name) o.
Proof.
  intros H ev Hin name o. apply tail_events in H. rewrite forallb_forall in H.
  specialize (H _ Hin). split; intros ->; discriminate H.
Qed.

Section ControllerMore.

Variable World : Type.
Variable getProcessInfo : World -> string -> reply string * World.
Variable perform : World -> command -> reply unit * World.
Variable running : World -> bool.


(** X6.  A KeyboardInterrupt raised inside the [try] never reaches the
    caller of [run]: when [run] ends with KeyboardInterrupt, the interrupt
    was raised by its last call, and that call is [Popen], the start-up
    sleep, [shutdown()] or [wait()]. *)
Theorem body_interrupt_is_caught fuel fetch_proc_count run_proc_count w w' t :
  run getProcessInfo perform running fuel fetch_proc_count run_proc_count w
    = (Exc (Raised KeyboardInterrupt), w', t) ->
  exists pre c,
    t = pre ++ [EvCmd c (Raises KeyboardInterrupt)] /\
    (c = Popen \/
     (c = Sleep 1 /\ pre = [EvCmd Popen (Returns tt)]) \/
     c = Shutdown \/ c = ProcWait).
Proof.
  intros H. apply run_shape, run_segments in H.
  destruct H as [(e & -> & E)|[(e & -> & E)|(rb & tb & tail & B & T & ->)]].
  - injection E as <-. exists [], Popen. split; [reflexivity|now left].
  - injection E as <-. exists [EvCmd Popen (Returns tt)], (Sleep 1).
    split; [reflexivity|]. right. left. now split.
  - set (hd := [EvCmd Popen (Returns tt); EvCmd (Sleep 1) (Returns tt)]).
    change (EvCmd Popen (Returns tt) :: EvCmd (Sleep 1) (Returns tt) :: tb ++ tail)
      with (hd ++ tb ++ tail).
    remember (Exc (Raised KeyboardInterrupt)) as r eqn:E.
    destruct T as [|[[]|e]|[[]|e]|rb e N1 N2|x N]; try discriminate E.
    + injection E as ->.
      exists (hd ++ tb ++ [EvLog Info shutting_down_text]), ProcWait.
      split; [now rewrite <- !app_assoc|auto].
    + injection E as ->.
      exists (hd ++ tb ++ [EvCmd Shutdown (Returns tt); EvLog Info shutting_down_text]),
             ProcWait.
      split; [now rewrite <- !app_assoc|auto].
    + injection E as ->. exists (hd ++ tb), Shutdown.
      split; [now rewrite <- app_assoc|auto].
    + injection E as ->. now elim N.
Qed.

(** X7.  A run issues each of its two start commands at most once, and
    starts nothing else: the only group started is [run_signals], the only
    process [autoscaler]; the fetch group is never started by the
    controller. *)
Theorem start_commands_once fuel fetch_proc_count run_proc_count w r w' t :
  run getProcessInfo perform running fuel fetch_proc_count run_proc_count w
    = (r, w', t) ->
  calls (StartProcessGroup "run_signals") t <= 1 /\
  calls (StartProcess "autoscaler") t <= 1 /\
  (forall name o, In (EvCmd (StartProcessGroup name) o) t -> name = "run_signals") /\
  (forall name o, In (EvCmd (StartProcess name) o) t -> name = "autoscaler").
Proof.
  intros H. apply run_shape, run_segments in H.
  destruct H as [(e & -> & _)|[(e & -> & _)|(rb & tb & tail & B & T & ->)]].
  - repeat split; try (cbn; lia); intros name o [E|[]]; discriminate E.
  - repeat split; try (cbn; lia); intros name o [E|[E|[]]]; discriminate E.
  - destruct (body_start_counts _ _ _ _ B) as [C1 C2].
    destruct (body_start_names _ _ _ _ B) as [N1 N2].
    pose proof (tail_has_no_start _ _ _ T) as NT.
    assert (Z1 : forall c, (forall secs, c <> Sleep secs) -> c <> Shutdown ->
                 c <> ProcWait -> calls c tail = 0).
    { intros c H1 H2 H3. apply calls_none. intros ev Hin.
      apply tail_events in T. rewrite forallb_forall in T. specialize (T _ Hin).
      destruct ev as [name o|[] o|lvl msg]; try discriminate T; destruct c;
        try reflexivity; congruence. }
    repeat split.
    + rewrite !calls_cons, calls_app, Z1 by discriminate. cbn. lia.
    + rewrite !calls_cons, calls_app, Z1 by discriminate. cbn. lia.
    + intros name o [E|[E|Hin]]; try discriminate E.
      apply in_app_or in Hin as [Hin|Hin]; [eapply N1, Hin|].
      now destruct (NT _ Hin name o) as [X _].
    + intros name o [E|[E|Hin]]; try discriminate E.
      apply in_app_or in Hin as [Hin|Hin]; [eapply N2, Hin|].
      now destruct (NT _ Hin name o) as [_ X].
Qed.

End ControllerMore.

(** *** Which process is queried, and when *)

Lemma existsb_none {A} (p : A -> bool) (t : list A) :
  (forall x, In x t -> p x = false) -> existsb p t = false.
Proof.
  induction t as [|x t IH]; [reflexivity|]. intros H. cbn.
  rewrite (H x) by now left. apply IH. intros y Hy. apply H. now right.
Qed.

Lemma in_queried name o t : In (EvInfo name o) t -> In name (queried t).
Proof.
  induction t as [|[name' o'|c o'|lvl msg] t IH]; cbn; [easy| |intros [E|H]..];
    try discriminate E; auto.
  intros [E|H]; [injection E as -> _; now left|right; auto].
Qed.

(** The status queries of a stage wait are those of the instances of its
    group. *)
Lemma waiting_query_names process_name num_procs terminal_state r t name o :
  waiting process_name num_procs terminal_state r t ->
  In (EvInfo name o) t ->
  exists i, (0 <= Z.of_nat i < num_procs)%Z /\ name = instance_name process_name i.
Proof.
  intros (t' & -> & H) Hin. apply in_queried in Hin. cbn [queried] in Hin.
  assert (I : forall r0 t0, iteration process_name num_procs terminal_state r0 t0 ->
    In name (queried t0) ->
    exists i, (0 <= Z.of_nat i < num_procs)%Z /\ name = instance_name process_name i).
  { intros r0 t0 Hs Hn. apply iteration_queried in Hs as (k & Hk & E & _).
    rewrite E in Hn. apply in_map_iff in Hn as (i & <- & Hi). apply in_seq in Hi.
    exists i. split; [lia|reflexivity]. }
  induction H as [|t Hs|x t Hs|t r t' Hs Hl IH]; [easy|eauto..|].
  rewrite queried_app in Hin. apply in_app_or in Hin as [Hin|Hin]; eauto.
Qed.

Lemma steady_query_names r t name o :
  looping steady r t -> In (EvInfo name o) t -> name = "autoscaler".
Proof.
  induction 1 as [|t H|x t H|t r t' H Hl IH]; [easy| | |]; intros Hin;
    try (apply in_app_or in Hin as [Hin|Hin]; [|now auto]);
    destruct H as [|state E|state o' E|e];
    repeat (destruct Hin as [Hin|Hin]); try discriminate Hin; try contradiction;
    now injection Hin as <- _.
Qed.

Lemma stage_query_not_main process_name num_procs terminal_state r t :
  process_name = "fetch_signals" \/ process_name = "run_signals" ->
  waiting process_name num_procs terminal_state r t ->
  existsb main_answered t = false.
Proof.
  intros Hpn H. apply existsb_none. intros [name [state|e]|c o|lvl msg] Hin;
    try reflexivity.
  destruct (waiting_query_names _ _ _ _ _ _ _ H Hin) as (i & _ & ->).
  now apply stage_is_not_direct.
Qed.

(** One iteration of the steady-state loop, after the answer to its query. *)
Lemma steady_after_answer r t pre name state post :
  steady r t ->
  t = pre ++ EvInfo name (Returns state) :: post ->
  (existsb (String.eqb state) SUPERVISORD_RUNNING_STATES = true /\
   exists o, post = [EvCmd (Sleep 5) o] /\ r = continue_or o) \/
  (existsb (String.eqb state) SUPERVISORD_RUNNING_STATES = false /\
   post = [] /\ r = Val Break).
Proof.
  intros [|state0 E|state0 o E|e] H;
    repeat (destruct pre as [|? pre]; try discriminate H);
    injection H as _ <- <-.
  - now right.
  - left. split; [exact E|]. now exists o.
Qed.

Lemma steady_loop_after_answer r t :
  looping steady r t ->
  forall pre name state post,
    t = pre ++ EvInfo name (Returns state) :: post ->
    (existsb (String.eqb state) SUPERVISORD_RUNNING_STATES = true ->
     exists o post', post = EvCmd (Sleep 5) o :: post') /\
    (existsb (String.eqb state) SUPERVISORD_RUNNING_STATES = false ->
     post = [] /\ r = Val tt).
Proof.
  induction 1 as [|t H|x t H|t r t' H Hl IH]; intros pre name state post E.
  - now destruct pre.
  - destruct (steady_after_answer _ _ _ _ _ _ H E)
      as [(R & o & -> & _)|(R & -> & _)]; rewrite R; split; try discriminate; eauto.
  - destruct (steady_after_answer _ _ _ _ _ _ H E)
      as [(R & o & -> & _)|(R & -> & X)]; [|discriminate X].
    rewrite R. split; try discriminate. eauto.
  - apply app_split_at in E as [(post1 & E & ->)|(pre2 & -> & E)].
    + destruct (steady_after_answer _ _ _ _ _ _ H E)
        as [(R & o & -> & _)|(R & -> & X)]; [|discriminate X].
      rewrite R. split; try discriminate. intros _. now exists o, t'.
    + eapply IH, E.
Qed.

(** In the [try] body an answered query of the main process is followed by
    the five-second sleep or ends the body. *)
Lemma body_after_answer fetch_proc_count run_proc_count rb tb pre name state post :
  body_trace fetch_proc_count run_proc_count rb tb ->
  tb = pre ++ EvInfo name (Returns state) :: post ->
  direct_query name = true ->
  (existsb (String.eqb state) SUPERVISORD_RUNNING_STATES = true ->
   exists o post', post = EvCmd (Sleep 5) o :: post') /\
  (existsb (String.eqb state) SUPERVISORD_RUNNING_STATES = false ->
   post = [] /\ rb = Val tt).
Proof.
  intros B E D.
  assert (Hev : main_answered (EvInfo name (Returns state)) = true) by exact D.
  assert (No : forall t post0, existsb main_answered t = false ->
                 t = pre ++ EvInfo name (Returns state) :: post0 -> False)
    by (intros t post0 Q ->; now rewrite existsb_split in Q).
  destruct B as [r1 t1 W1 N|t1 e W1|t1 r2 t2 W1 W2 N|t1 t2 e W1 W2|t1 t2 r3 t3 W1 W2 L3];
    apply (stage_query_not_main _ _ _ _ _ (or_introl eq_refl)) in W1;
    try apply (stage_query_not_main _ _ _ _ _ (or_intror eq_refl)) in W2.
  - now elim (No _ _ W1 E).
  - exfalso. eapply No; [|exact E]. rewrite existsb_app, W1. reflexivity.
  - exfalso. eapply No; [|exact E]. rewrite existsb_app, W1. cbn. exact W2.
  - exfalso. eapply No; [|exact E]. rewrite existsb_app, W1. cbn.
    rewrite existsb_app, W2. reflexivity.
  - assert (A : t1 ++ EvCmd (StartProcessGroup "run_signals") (Returns tt)
                    :: t2 ++ EvCmd (StartProcess "autoscaler") (Returns tt) :: t3
                = (t1 ++ EvCmd (StartProcessGroup "run_signals") (Returns tt)
                      :: t2 ++ [EvCmd (StartProcess "autoscaler") (Returns tt)]) ++ t3)
      by (rewrite <- app_assoc; cbn; now rewrite <- app_assoc).
    rewrite A in E. apply app_split_at in E as [(post1 & E & _)|(pre2 & _ & E)].
    + exfalso. eapply No; [|exact E]. rewrite existsb_app, W1. cbn.
      rewrite existsb_app, W2. reflexivity.
    + eapply steady_loop_after_answer; eassumption.
Qed.

Lemma in_two {A} (a b pre post : list A) (x ev : A) :
  a ++ x :: b = pre ++ ev :: post -> ev <> x ->
  (exists post1, a = pre ++ ev :: post1) \/
  (exists pre2, pre = a ++ x :: pre2 /\ b = pre2 ++ ev :: post).
Proof.
  intros H N. apply app_split_at in H as [(post1 & -> & _)|(pre2 & -> & H)].
  - left. now exists post1.
  - destruct pre2 as [|y pre2]; cbn in H; injection H as <- H; [now elim N|].
    right. now exists pre2.
Qed.

(** Every status query of the [try] body is for an instance of the fetch
    group, for an instance of the run group once that group is started, or
    for the main process once it is started. *)
Lemma body_queries fetch_proc_count run_proc_count rb tb pre name o post :
  body_trace fetch_proc_count run_proc_count rb tb ->
  tb = pre ++ EvInfo name o :: post ->
  (exists i, (0 <= Z.of_nat i < fetch_proc_count)%Z /\
             name = instance_name "fetch_signals" i) \/
  (exists i, (0 <= Z.of_nat i < run_proc_count)%Z /\
             name = instance_name "run_signals" i /\
             In (EvCmd (StartProcessGroup "run_signals") (Returns tt)) pre) \/
  (name = "autoscaler" /\
   In (EvCmd (StartProcess "autoscaler") (Returns tt)) pre).
Proof.
  intros B E.
  assert (F : forall r1 t1 post1,
    waiting "fetch_signals" fetch_proc_count "EXITED" r1 t1 ->
    t1 = pre ++ EvInfo name o :: post1 ->
    exists i, (0 <= Z.of_nat i < fetch_proc_count)%Z /\
              name = instance_name "fetch_signals" i).
  { intros r1 t1 post1 W ->. eapply waiting_query_names; [exact W|apply in_elt]. }
  assert (R : forall r2 t2 pre2 post2,
    waiting "run_signals" run_proc_count "RUNNING" r2 t2 ->
    t2 = pre2 ++ EvInfo name o :: post2 ->
    exists i, (0 <= Z.of_nat i < run_proc_count)%Z /\
              name = instance_name "run_signals" i).
  { intros r2 t2 pre2 post2 W ->. eapply waiting_query_names; [exact W|apply in_elt]. }
  destruct B as [r1 t1 W1 N|t1 e W1|t1 r2 t2 W1 W2 N|t1 t2 e W1 W2|t1 t2 r3 t3 W1 W2 L3].
  - left. eapply F; eassumption.
  - apply in_two in E as [(post1 & E)|(pre2 & _ & E)]; [|now destruct pre2|discriminate].
    left. eapply F; eassumption.
  - apply in_two in E as [(post1 & E)|(pre2 & -> & E)]; [| |discriminate].
    + left. eapply F; eassumption.
    + right. left. destruct (R _ _ _ _ W2 E) as (i & Hi & ->).
      exists i. split; [exact Hi|]. split; [reflexivity|apply in_elt].
  - apply in_two in E as [(post1 & E)|(pre2 & -> & E)]; [| |discriminate].
    + left. eapply F; eassumption.
    + apply in_two in E as [(post1 & E)|(pre3 & _ & E)];
        [|now destruct pre3|discriminate].
      right. left. destruct (R _ _ _ _ W2 E) as (i & Hi & ->).
      exists i. split; [exact Hi|]. split; [reflexivity|apply in_elt].
  - apply in_two in E as [(post1 & E)|(pre2 & -> & E)]; [| |discriminate].
    + left. eapply F; eassumption.
    + apply in_two in E as [(post1 & E)|(pre3 & -> & E)]; [| |discriminate].
      * right. left. destruct (R _ _ _ _ W2 E) as (i & Hi & ->).
        exists i. split; [exact Hi|]. split; [reflexivity|apply in_elt].
      * right. right. split.
        -- eapply steady_query_names; [exact L3|]. rewrite E. apply in_elt.
        -- apply in_or_app. right. right. apply in_elt.
Qed.

Section ControllerQueries.

Variable World : Type.
Variable getProcessInfo : World -> string -> reply string * World.
Variable perform : World -> command -> reply unit * World.
Variable running : World -> bool.

(** X8.  What the answer of the main process decides.  STARTING or RUNNING:
    the next call is [time.sleep(5)].  Any other state, FATAL as well as
    EXITED: the loop is left without an error; [shutdown()] is the next call,
    then [wait()], and [run] returns unless one of these two raises. *)
Theorem main_process_state_decides fuel fetch_proc_count run_proc_count
    w r w' t pre state post :
  run getProcessInfo perform running fuel fetch_proc_count run_proc_count w
    = (r, w', t) ->
  t = pre ++ EvInfo "autoscaler" (Returns state) :: post ->
  (In state SUPERVISORD_RUNNING_STATES ->
   exists o post', post = EvCmd (Sleep 5) o :: post') /\
  (~ In state SUPERVISORD_RUNNING_STATES ->
   (exists e, post = [EvCmd Shutdown (Raises e)] /\ r = Exc (Raised e)) \/
   (exists o,
       post = [EvCmd Shutdown (Returns tt); EvLog Info shutting_down_text;
               EvCmd ProcWait o] /\
       r = finally_result (Val tt) o)).
Proof.
  intros H E. apply run_shape in H.
  assert (P3 : forall ev', is_tail_event ev' = true -> main_answered ev' = false)
    by now intros [name' o'|[] o'|lvl msg].
  destruct (run_event_in_body _ _ _ _ _ _ _ _
              (fun _ => eq_refl) (fun _ _ => eq_refl) P3 H E eq_refl)
    as (rb & tb & tail & pre1 & post1 & B & T & E' & _ & ->).
  destruct (body_after_answer _ _ _ _ _ _ _ _ B E' eq_refl) as [Run Left].
  assert (Dec : In state SUPERVISORD_RUNNING_STATES <->
                existsb (String.eqb state) SUPERVISORD_RUNNING_STATES = true).
  { rewrite existsb_exists. split.
    - intros Hin. exists state. split; [exact Hin|apply String.eqb_refl].
    - intros (x & Hin & Ex). apply String.eqb_eq in Ex. now subst. }
  split.
  - intros Hin. apply Dec, Run in Hin as (o & post' & ->). now exists o, (post' ++ tail).
  - intros Hn.
    destruct (existsb (String.eqb state) SUPERVISORD_RUNNING_STATES) eqn:X;
      [elim Hn; now apply Dec|].
    destruct (Left eq_refl) as [-> ->]. cbn [app].
    remember (Val tt) as rb eqn:Erb.
    destruct T as [|o|o|rb e N1 N2|x N]; try discriminate Erb.
    + right. now exists o.
    + left. now exists e.
Qed.

(** X9.  No process is asked for its state before it is started.  Every
    status query of a run is for a fetch instance, or for a run instance
    after [startProcessGroup("run_signals")] has returned, or for the
    autoscaler after [startProcess("autoscaler")] has returned. *)
Theorem queries_follow_starts fuel fetch_proc_count run_proc_count
    w r w' t pre name o post :
  run getProcessInfo perform running fuel fetch_proc_count run_proc_count w
    = (r, w', t) ->
  t = pre ++ EvInfo name o :: post ->
  (exists i, (0 <= Z.of_nat i < fetch_proc_count)%Z /\
             name = instance_name "fetch_signals" i) \/
  (exists i, (0 <= Z.of_nat i < run_proc_count)%Z /\
             name = instance_name "run_signals" i /\
             In (EvCmd (StartProcessGroup "run_signals") (Returns tt)) pre) \/
  (name = "autoscaler" /\
   In (EvCmd (StartProcess "autoscaler") (Returns tt)) pre).
Proof.
  intros H E. apply run_shape in H.
  assert (P3 : forall ev', is_tail_event ev' = true -> is_query ev' = false)
    by now intros [name' o'|[] o'|lvl msg].
  destruct (run_event_in_body _ _ _ _ _ _ _ _
              (fun _ => eq_refl) (fun _ _ => eq_refl) P3 H E eq_refl)
    as (rb & tb & tail & pre1 & post1 & B & _ & E' & -> & _).
  destruct (body_queries _ _ _ _ _ _ _ _ B E')
    as [F|[(i & Hi & Hn & Hin)|(Hn & Hin)]].
  - now left.
  - right. left. exists i. split; [exact Hi|]. split; [exact Hn|now do 2 right].
  - right. right. split; [exact Hn|now do 2 right].
Qed.

End ControllerQueries.

(** *** The stop flag *)

(** What the steady-state loop records once the main process is started. *)
Lemma body_after_start_main fetch_proc_count run_proc_count rb tb pre post :
  body_trace fetch_proc_count run_proc_count rb tb ->
  tb = pre ++ EvCmd (StartProcess "autoscaler") (Returns tt) :: post ->
  looping steady rb post.
Proof.
  set (p := is_cmd (StartProcess "autoscaler")).
  assert (Q : forall pn n ts r t, waiting pn n ts r t -> existsb p t = false)
    by (intros pn n ts r t H; apply waiting_polls in H;
        now apply polls_have_no_command).
  intros [r1 t1 W1 N|t1 e W1|t1 r2 t2 W1 W2 N|t1 t2 e W1 W2|t1 t2 r3 t3 W1 W2 L3] E.
  - apply Q in W1. rewrite E in W1. now rewrite existsb_split in W1.
  - assert (X : existsb p (t1 ++ [EvCmd (StartProcessGroup "run_signals") (Raises e)])
                = false) by (rewrite existsb_app, (Q _ _ _ _ _ W1); reflexivity).
    rewrite E in X. now rewrite existsb_split in X.
  - assert (X : existsb p (t1 ++ EvCmd (StartProcessGroup "run_signals") (Returns tt)
                              :: t2) = false)
      by (rewrite existsb_app, (Q _ _ _ _ _ W1); cbn; now rewrite (Q _ _ _ _ _ W2)).
    rewrite E in X. now rewrite existsb_split in X.
  - change (t1 ++ EvCmd (StartProcessGroup "run_signals") (Returns tt)
               :: t2 ++ [EvCmd (StartProcess "autoscaler") (Raises e)])
      with (t1 ++ (EvCmd (StartProcessGroup "run_signals") (Returns tt) :: t2) ++
            [EvCmd (StartProcess "autoscaler") (Raises e)]) in E.
    rewrite app_assoc in E. apply (unique_split p) in E as (_ & E & _);
      [discriminate E| |reflexivity..].
    rewrite existsb_app, (Q _ _ _ _ _ W1). cbn. now rewrite (Q _ _ _ _ _ W2).
  - change (t1 ++ EvCmd (StartProcessGroup "run_signals") (Returns tt)
               :: t2 ++ EvCmd (StartProcess "autoscaler") (Returns tt) :: t3)
      with (t1 ++ (EvCmd (StartProcessGroup "run_signals") (Returns tt) :: t2) ++
            EvCmd (StartProcess "autoscaler") (Returns tt) :: t3) in E.
    rewrite app_assoc in E. apply (unique_split p) in E as (_ & _ & ->);
      [exact L3| | |reflexivity].
    + rewrite existsb_app, (Q _ _ _ _ _ W1). cbn. now rewrite (Q _ _ _ _ _ W2).
    + apply steady_polls in L3. now apply polls_have_no_command.
Qed.

(** A steady-state loop that never queried the main process recorded
    nothing. *)
Lemma steady_silent r t :
  looping steady r t ->
  (forall o, ~ In (EvInfo "autoscaler" o) t) ->
  t = [] /\ (r = Val tt \/ r = OutOfFuel).
Proof.
  assert (S1 : forall r0 t0, steady r0 t0 ->
    (forall o, ~ In (EvInfo "autoscaler" o) t0) -> t0 = [] /\ r0 = Val Break).
  { intros r0 t0 [|state E|state o E|e] N; [now split|exfalso..];
      eapply N; now left. }
  induction 1 as [|t H|x t H|t r t' H Hl IH]; intros N.
  - split; [reflexivity|now right].
  - destruct (S1 _ _ H N) as [-> _]. split; [reflexivity|now left].
  - destruct (S1 _ _ H N) as [_ X]. discriminate X.
  - destruct (S1 _ _ H) as [_ X]; [|discriminate X].
    intros o Hin. apply (N o). apply in_or_app. now left.
Qed.

Section StopFlag.

Variable World : Type.
Variable getProcessInfo : World -> string -> reply string * World.
Variable perform : World -> command -> reply unit * World.
Variable running : World -> bool.

Hypothesis stop_requested : forall w, running w = false.

Lemma steady_loop_stopped fuel w r w' t :
  while_true fuel (steady_iteration getProcessInfo perform running) w = (r, w', t) ->
  t = [].
Proof.
  destruct fuel as [|fuel].
  - intros H. now injection H as <- <- <-.
  - rewrite while_true_S. unfold steady_iteration, bind at 1, is_running.
    rewrite stop_requested. cbn. intros H. now injection H as <- <- <-.
Qed.

Lemma run_body_stopped fuel fetch_proc_count run_proc_count w rb w' tb o :
  run_body getProcessInfo perform running fuel fetch_proc_count run_proc_count w
    = (rb, w', tb) ->
  ~ In (EvInfo "autoscaler" o) tb.
Proof.
  assert (W : forall pn n ts r t,
    pn = "fetch_signals" \/ pn = "run_signals" ->
    waiting pn n ts r t -> ~ In (EvInfo "autoscaler" o) t).
  { intros pn n ts r t Hpn H Hin.
    destruct (waiting_query_names _ _ _ _ _ _ _ H Hin) as (i & _ & E).
    pose proof (stage_is_not_direct pn i Hpn) as D. rewrite <- E in D.
    discriminate D. }
  unfold run_body. rewrite bind_eq.
  destruct (wait_for_process _ _ fuel "fetch_signals" _ _ w)
    as [[[[]|x1|] w1] t1] eqn:E1; apply wait_for_process_waiting in E1;
    apply W in E1; auto.
  2,3: intros H; injection H as <- <- <-; exact E1.
  rewrite bind_eq, do_eq.
  destruct (perform w1 (StartProcessGroup "run_signals")) as [[[]|e] w2]; cbn [of_reply].
  2: { intros H; injection H as <- <- <-. intros Hin.
       apply in_app_or in Hin as [Hin|[Hin|[]]]; [now apply E1|discriminate Hin]. }
  rewrite bind_eq.
  destruct (wait_for_process _ _ fuel "run_signals" _ _ w2)
    as [[[[]|x2|] w3] t2] eqn:E2; apply wait_for_process_waiting in E2;
    apply W in E2; auto.
  2,3: intros H; injection H as <- <- <-; intros Hin;
       apply in_app_or in Hin as [Hin|[Hin|Hin]];
       [now apply E1|discriminate Hin|now apply E2].
  rewrite bind_eq, do_eq.
  destruct (perform w3 (StartProcess "autoscaler")) as [[[]|e] w4]; cbn [of_reply].
  2: { intros H; injection H as <- <- <-. intros Hin.
       apply in_app_or in Hin as [Hin|[Hin|Hin]];
         [now apply E1|discriminate Hin|].
       apply in_app_or in Hin as [Hin|[Hin|[]]]; [now apply E2|discriminate Hin]. }
  destruct (while_true fuel _ w4) as [[r3 w5] t3] eqn:E3.
  apply steady_loop_stopped in E3. subst t3.
  intros H; injection H as <- <- <-. intros Hin.
  apply in_app_or in Hin as [Hin|[Hin|Hin]]; [now apply E1|discriminate Hin|].
  apply in_app_or in Hin as [Hin|[Hin|[]]]; [now apply E2|discriminate Hin].
Qed.

Lemma run_stopped fuel fetch_proc_count run_proc_count w r w' t o :
  run getProcessInfo perform running fuel fetch_proc_count run_proc_count w
    = (r, w', t) ->
  ~ In (EvInfo "autoscaler" o) t.
Proof.
  unfold run. rewrite bind_eq, do_eq.
  destruct (perform w Popen) as [[[]|e] w1]; cbn [of_reply].
  2: { intros H; injection H as <- <- <-. intros [Hin|[]]. discriminate Hin. }
  unfold after. rewrite bind_eq, do_eq.
  destruct (perform w1 (Sleep 1)) as [[[]|e] w2]; cbn [of_reply].
  2: { intros H; injection H as <- <- <-. intros [Hin|[Hin|[]]]; discriminate Hin. }
  unfold after.
  assert (G : forall wg rg w3 tg,
    run_guarded getProcessInfo perform running fuel fetch_proc_count run_proc_count wg
      = (rg, w3, tg) -> ~ In (EvInfo "autoscaler" o) tg).
  { intros wg rg w3 tg. unfold run_guarded, try_except. rewrite bind_eq.
    destruct (run_body _ _ _ fuel _ _ wg) as [[[[]|x|] w1'] t1] eqn:E;
      apply (run_body_stopped _ _ _ _ _ _ _ o) in E.
    - unfold ret, cleanup, after. cbn [negb]. rewrite do_eq.
      destruct (perform w1' Shutdown) as [o' w2'].
      intros H; injection H as <- <- <-. rewrite app_nil_r. intros Hin.
      apply in_app_or in Hin as [Hin|[Hin|[]]]; [now apply E|discriminate Hin].
    - destruct (is_KeyboardInterrupt x).
      + unfold ret, cleanup, after. cbn.
        intros H; injection H as <- <- <-. now rewrite !app_nil_r.
      + unfold cleanup, after. cbn [negb]. rewrite bind_eq, do_eq.
        destruct (perform w1' Shutdown) as [[[]|e] w2']; cbn;
          intros H; injection H as <- <- <-; intros Hin;
          apply in_app_or in Hin as [Hin|[Hin|[]]];
          try (now apply E); discriminate Hin.
    - intros H; injection H as <- <- <-. exact E. }
  rewrite bind_eq.
  destruct (run_guarded _ _ _ fuel _ _ w2) as [[[[]|x|] w3] t3] eqn:E;
    apply G in E.
  - unfold after. rewrite bind_eq. unfold log at 1, after. rewrite do_eq.
    destruct (perform w3 ProcWait) as [o' w4].
    intros H; injection H as <- <- <-. intros [Hin|[Hin|Hin]]; try discriminate Hin.
    apply in_app_or in Hin as [Hin|[Hin|[Hin|[]]]]; try discriminate Hin.
    now apply E.
  - intros H; injection H as <- <- <-. intros [Hin|[Hin|Hin]]; try discriminate Hin.
    now apply E.
  - intros H; injection H as <- <- <-. intros [Hin|[Hin|Hin]]; try discriminate Hin.
    now apply E.
Qed.

(** X10.  With the stop flag down, [and] short-circuits: the main process
    is started but never asked for its state, and once its start command has
    returned the next call of a run that ends is [shutdown()]. *)
Theorem stop_flag_skips_main_process fuel fetch_proc_count run_proc_count w r w' t :
  run getProcessInfo perform running fuel fetch_proc_count run_proc_count w
    = (r, w', t) ->
  (forall o, ~ In (EvInfo "autoscaler" o) t) /\
  (terminated r = true ->
   forall pre post,
     t = pre ++ EvCmd (StartProcess "autoscaler") (Returns tt) :: post ->
     exists o tail, post = EvCmd Shutdown o :: tail).
Proof.
  intros H. pose proof (fun o => run_stopped _ _ _ _ _ _ _ o H) as N.
  split; [exact N|]. intros Tm pre post E. apply run_shape in H.
  assert (P3 : forall ev', is_tail_event ev' = true ->
                is_cmd (StartProcess "autoscaler") ev' = false)
    by now intros [name o'|[] o'|lvl msg].
  destruct (run_event_in_body _ _ _ _ _ _ _ _
              (fun _ => eq_refl) (fun _ _ => eq_refl) P3 H E eq_refl)
    as (rb & tb & tail & pre1 & post1 & B & T & E' & -> & ->).
  apply (body_after_start_main _ _ _ _ _ _ B) in E'.
  apply steady_silent in E' as [-> [-> | ->]].
  - cbn [app]. remember (Val tt) as rb eqn:Erb.
    destruct T as [|o|o|rb e N1 N2|x N']; try discriminate Erb; now eexists _, _.
  - remember OutOfFuel as rb eqn:Erb.
    destruct T as [|o|o|rb e N1 N2|x N']; try discriminate Erb; try discriminate Tm.
    now elim N1.
  - intros o Hin. apply (N o). rewrite E. apply in_or_app. right. right.
    apply in_or_app. now left.
Qed.

End StopFlag.

(** ** The environment of the daemon *)

Lemma string_append_assoc (a b c : string) :
  ((a ++ b) ++ c)%string = (a ++ (b ++ c))%string.
Proof. induction a as [|x a IH]; cbn; [reflexivity|]. now rewrite IH. Qed.

(** One flag put in front of [args], as the f-strings of [run] do. *)
Lemma flag_prefix (flag value args : string) :
  (flag ++ dquote ++ value ++ dquote ++ " " ++ args)%string
  = ((flag ++ dquote ++ value ++ dquote ++ " ") ++ args)%string.
Proof. now rewrite !string_append_assoc. Qed.

(** X11.  The daemon inherits the environment of the bootstrap with one
    variable changed: every variable but CMAN_ARGS is passed on as it is, and
    the new CMAN_ARGS ends with the old one (with nothing when it was not
    set), so that what the caller put there comes last on the command line
    of the autoscaler. *)
Theorem popen_env_keeps_caller_args opts environ :
  (exists prefix,
      popen_env opts environ "CMAN_ARGS"
      = Some (prefix ++ dict_get environ "CMAN_ARGS" "")%string) /\
  (forall key, key <> "CMAN_ARGS" -> popen_env opts environ key = environ key).
Proof.
  split.
  - unfold popen_env, dict_set, cman_args. rewrite String.eqb_refl.
    destruct (truthy (env_config_path opts)), (truthy (cluster_config_directory opts)).
    + eexists. rewrite (flag_prefix "--env-config-path "), flag_prefix.
      now rewrite <- string_append_assoc.
    + eexists. now rewrite flag_prefix.
    + eexists. now rewrite flag_prefix.
    + now exists "".
  - intros key N. unfold popen_env, dict_set.
    apply String.eqb_neq in N. now rewrite N.
Qed.

(** X12.  An option that is unset or the empty string is not passed on:
    with both options so, CMAN_ARGS reaches the daemon unchanged, and as the
    empty string when the bootstrap had none; with the one option set, exactly
    its flag and quoted value are put in front. *)
Theorem unset_options_are_not_passed opts environ :
  (truthy (env_config_path opts) = false ->
   truthy (cluster_config_directory opts) = false ->
   popen_env opts environ "CMAN_ARGS" = Some (dict_get environ "CMAN_ARGS" "") /\
   (environ "CMAN_ARGS" = None -> popen_env opts environ "CMAN_ARGS" = Some "")) /\
  (forall path,
      env_config_path opts = Some path -> path <> "" ->
      truthy (cluster_config_directory opts) = false ->
      popen_env opts environ "CMAN_ARGS"
      = Some ("--env-config-path " ++ dquote ++ path ++ dquote ++ " "
                ++ dict_get environ "CMAN_ARGS" "")%string) /\
  (forall dir,
      cluster_config_directory opts = Some dir -> dir <> "" ->
      truthy (env_config_path opts) = false ->
      popen_env opts environ "CMAN_ARGS"
      = Some ("--cluster-config-directory " ++ dquote ++ dir ++ dquote ++ " "
                ++ dict_get environ "CMAN_ARGS" "")%string).
Proof.
  unfold popen_env, dict_set, cman_args. rewrite String.eqb_refl.
  split; [|split].
  - intros -> ->. split; [reflexivity|]. unfold dict_get. now intros ->.
  - intros path E N ->. rewrite E. cbn [truthy str_of].
    apply String.eqb_neq in N. now rewrite N.
  - intros dir E N ->. rewrite E. cbn [truthy str_of].
    apply String.eqb_neq in N. now rewrite N.
Qed.

(** ** What a run raises *)

Section RunRaises.

Variable World : Type.
Variable getProcessInfo : World -> string -> reply string * World.
Variable perform : World -> command -> reply unit * World.
Variable running : World -> bool.


End RunRaises.

(** ** The further properties on scripted runs *)

(** X1 on the wait that loses a FATAL report. *)
Lemma wait_for_process_only_sleeps_witness :
  forallb is_wait_event
    (snd (Fake.wait_for_process 2 "run_signals" 2 "RUNNING" Fake.lost_fatal)) = true.
Proof.
  exact (proj1
    (wait_for_process_only_sleeps Fake.world Fake.getProcessInfo Fake.perform
       2 "run_signals" 2 "RUNNING" Fake.lost_fatal _ _ _ eq_refl)).
Defined.

Lemma minus_three_is_not_positive : (-3 <= 0)%Z.
Proof. intros H. discriminate H. Defined.

(** X2 on a count of -3. *)
Lemma wait_for_process_no_instances_witness :
  Fake.wait_for_process 1 "fetch_signals" (-3) "EXITED" Fake.fetch_fatal
  = (Val tt, Fake.fetch_fatal, [EvLog Info "waiting for fetch_signals to start"]).
Proof.
  exact (wait_for_process_no_instances Fake.world Fake.getProcessInfo Fake.perform
           0 "fetch_signals" (-3) "EXITED" Fake.fetch_fatal
           minus_three_is_not_positive).
Defined.

(** X3 on one instance that reports FATAL. *)
Lemma fatal_is_no_terminal_state_witness :
  fst (fst (Fake.wait_for_process 3 "fetch_signals" 1 "FATAL" Fake.fetch_fatal))
    = OutOfFuel \/
  exists x,
    fst (fst (Fake.wait_for_process 3 "fetch_signals" 1 "FATAL" Fake.fetch_fatal))
    = Exc x.
Proof.
  exact (fatal_is_no_terminal_state Fake.world Fake.getProcessInfo Fake.perform
           3 "fetch_signals" 1 Fake.fetch_fatal _ _ _ eq_refl eq_refl).
Defined.



(** X6 on the same run: the interrupt that reaches the caller is the one of
    the start-up sleep. *)
Lemma body_interrupt_is_caught_witness :
  exists pre c,
    [EvCmd Popen (Returns tt); EvCmd (Sleep 1) (Raises KeyboardInterrupt)]
    = pre ++ [EvCmd c (Raises KeyboardInterrupt)] /\
    (c = Popen \/
     (c = Sleep 1 /\ pre = [EvCmd Popen (Returns tt)]) \/
     c = Shutdown \/ c = ProcWait).
Proof.
  exact (body_interrupt_is_caught Fake.world Fake.getProcessInfo Fake.perform
           Fake.running 2 1 1 Fake.interrupted_startup _ _ eq_refl).
Defined.

(** X7 on the healthy run. *)
Lemma start_commands_once_witness :
  calls (StartProcessGroup "run_signals") (snd (Fake.run 2 1 1 Fake.healthy)) <= 1.
Proof.
  exact (proj1
    (start_commands_once Fake.world Fake.getProcessInfo Fake.perform
       Fake.running 2 1 1 Fake.healthy _ _ _ eq_refl)).
Defined.

Lemma FATAL_is_no_running_state : ~ In "FATAL" SUPERVISORD_RUNNING_STATES.
Proof. intros [H|[H|[]]]; discriminate H. Defined.

(** X8 on an autoscaler seen FATAL: [shutdown()], [wait()], and [run]
    returns. *)
Lemma main_process_state_decides_witness :
  (exists e,
      [EvCmd Shutdown (Returns tt); EvLog Info shutting_down_text;
       EvCmd ProcWait (Returns tt)] = [EvCmd Shutdown (Raises e)] /\
      fst (fst (Fake.run 2 1 1 Fake.autoscaler_fatal)) = Exc (Raised e)) \/
  (exists o,
      [EvCmd Shutdown (Returns tt); EvLog Info shutting_down_text;
       EvCmd ProcWait (Returns tt)]
      = [EvCmd Shutdown (Returns tt); EvLog Info shutting_down_text; EvCmd ProcWait o] /\
      fst (fst (Fake.run 2 1 1 Fake.autoscaler_fatal)) = finally_result (Val tt) o).
Proof.
  exact (proj2
    (main_process_state_decides Fake.world Fake.getProcessInfo Fake.perform
       Fake.running 2 1 1 Fake.autoscaler_fatal _ _ _
       [EvCmd Popen (Returns tt); EvCmd (Sleep 1) (Returns tt);
        EvLog Info "waiting for fetch_signals to start";
        EvInfo "fetch_signals:fetch_signals_0" (Returns "EXITED");
        EvCmd (StartProcessGroup "run_signals") (Returns tt);
        EvLog Info "waiting for run_signals to start";
        EvInfo "run_signals:run_signals_0" (Returns "RUNNING");
        EvCmd (StartProcess "autoscaler") (Returns tt)]
       "FATAL" _ eq_refl eq_refl)
    FATAL_is_no_running_state).
Defined.

(** X9 on the healthy run: its first query of the autoscaler. *)
Lemma queries_follow_starts_witness :
  (exists i, (0 <= Z.of_nat i < 1)%Z /\
             "autoscaler" = instance_name "fetch_signals" i) \/
  (exists i, (0 <= Z.of_nat i < 1)%Z /\
             "autoscaler" = instance_name "run_signals" i /\
             In (EvCmd (StartProcessGroup "run_signals") (Returns tt))
               [EvCmd Popen (Returns tt); EvCmd (Sleep 1) (Returns tt);
                EvLog Info "waiting for fetch_signals to start";
                EvInfo "fetch_signals:fetch_signals_0" (Returns "EXITED");
                EvCmd (StartProcessGroup "run_signals") (Returns tt);
                EvLog Info "waiting for run_signals to start";
                EvInfo "run_signals:run_signals_0" (Returns "RUNNING");
                EvCmd (StartProcess "autoscaler") (Returns tt)]) \/
  ("autoscaler" = "autoscaler" /\
   In (EvCmd (StartProcess "autoscaler") (Returns tt))
     [EvCmd Popen (Returns tt); EvCmd (Sleep 1) (Returns tt);
      EvLog Info "waiting for fetch_signals to start";
      EvInfo "fetch_signals:fetch_signals_0" (Returns "EXITED");
      EvCmd (StartProcessGroup "run_signals") (Returns tt);
      EvLog Info "waiting for run_signals to start";
      EvInfo "run_signals:run_signals_0" (Returns "RUNNING");
      EvCmd (StartProcess "autoscaler") (Returns tt)]).
Proof.
  exact (queries_follow_starts Fake.world Fake.getProcessInfo Fake.perform
           Fake.running 2 1 1 Fake.healthy _ _ _
           [EvCmd Popen (Returns tt); EvCmd (Sleep 1) (Returns tt);
            EvLog Info "waiting for fetch_signals to start";
            EvInfo "fetch_signals:fetch_signals_0" (Returns "EXITED");
            EvCmd (StartProcessGroup "run_signals") (Returns tt);
            EvLog Info "waiting for run_signals to start";
            EvInfo "run_signals:run_signals_0" (Returns "RUNNING");
            EvCmd (StartProcess "autoscaler") (Returns tt)]
           "autoscaler" (Returns "RUNNING") _ eq_refl eq_refl).
Defined.

(** X10 on a supervisor whose autoscaler never exits, with the stop flag
    down: the start of the autoscaler is followed by [shutdown()]. *)
Lemma stop_flag_skips_main_process_witness :
  exists o tail,
    [EvCmd Shutdown (Returns tt); EvLog Info shutting_down_text;
     EvCmd ProcWait (Returns tt)] = EvCmd Shutdown o :: tail.
Proof.
  exact (proj2
    (stop_flag_skips_main_process Fake.world Fake.getProcessInfo Fake.perform
       Fake.stop_requested (fun _ => eq_refl) 2 1 1 Fake.never_exits _ _ _ eq_refl)
    eq_refl
    [EvCmd Popen (Returns tt); EvCmd (Sleep 1) (Returns tt);
     EvLog Info "waiting for fetch_signals to start";
     EvInfo "fetch_signals:fetch_signals_0" (Returns "EXITED");
     EvCmd (StartProcessGroup "run_signals") (Returns tt);
     EvLog Info "waiting for run_signals to start";
     EvInfo "run_signals:run_signals_0" (Returns "RUNNING")]
    _ eq_refl).
Defined.

Lemma a_path_is_not_empty : "/etc/cman.yaml" <> "".
Proof. discriminate. Defined.

(** X12 on a bootstrap given [--env-config-path /etc/cman.yaml] only, in an
    environment without CMAN_ARGS. *)
Lemma unset_options_are_not_passed_witness :
  popen_env {| env_config_path := Some "/etc/cman.yaml";
               cluster_config_directory := None |} (fun _ => None) "CMAN_ARGS"
  = Some ("--env-config-path " ++ dquote ++ "/etc/cman.yaml" ++ dquote ++ " "
            ++ dict_get (fun _ => None) "CMAN_ARGS" "")%string.
Proof.
  exact (proj1 (proj2
    (unset_options_are_not_passed
       {| env_config_path := Some "/etc/cman.yaml"; cluster_config_directory := None |}
       (fun _ => None)))
    "/etc/cman.yaml" eq_refl a_path_is_not_empty eq_refl).
Defined.

